(** * Basic-10 manual generator: page flow and block renderers

    A shallow embedding of [generate_pdf_docs.py].  The class
    [Basic10Manual] extends the [FPDF] class of the [fpdf] package
    and overrides its two decoration hooks ([header], [footer]); the
    block renderers ([chapter_title] ... [table_row]) are sequences of
    calls to the inherited drawing primitives.

    The file has three layers:
    - [PyStr]: the Python string operations the renderers use
      ([str.strip], [str.split], decimal formatting of a page number);
    - the drawing backend ([cell], [ln], [add_page], ...), which the
      Python file inherits and does not define;
    - the methods of [Basic10Manual] and the table loop of
      [create_documentation], translated line by line. *)

From Stdlib Require Import ZArith List String Ascii Bool Lia DecimalString.
Import ListNotations.

Open Scope string_scope.
Open Scope Z_scope.

(** ** Python strings

    A Python [str] is modelled as a Rocq [string] whose characters are
    the code points below 256, the range the core fonts (Helvetica,
    Courier) can encode. *)
Module PyStr.

(** [str.isspace] on one character: the code points below 256 that
    Python treats as white space (TAB..CR, FS..US, SPACE, NEL, NBSP). *)
Definition isspace (c : ascii) : bool :=
  let n := nat_of_ascii c in
  ((9 <=? n) && (n <=? 13) || (28 <=? n) && (n <=? 31)
   || (n =? 32) || (n =? 133) || (n =? 160))%nat.

Fixpoint lstrip (s : string) : string :=
  match s with
  | EmptyString => EmptyString
  | String c r => if isspace c then lstrip r else s
  end.

Fixpoint rstrip (s : string) : string :=
  match s with
  | EmptyString => EmptyString
  | String c r =>
      match rstrip r with
      | EmptyString => if isspace c then EmptyString else String c EmptyString
      | t => String c t
      end
  end.

(** [s.strip()] *)
Definition strip (s : string) : string := rstrip (lstrip s).

(** [s.split(sep)] for a one-character separator: never returns the
    empty list ([''.split('\n') == ['']]). *)
Fixpoint split (sep : ascii) (s : string) : list string :=
  match s with
  | EmptyString => [EmptyString]
  | String c r =>
      if Ascii.eqb c sep then EmptyString :: split sep r
      else match split sep r with
           | l :: ls => String c l :: ls
           | [] => [String c EmptyString]
           end
  end.

(** [sep.join(parts)] *)
Fixpoint join (sep : ascii) (parts : list string) : string :=
  match parts with
  | [] => EmptyString
  | [p] => p
  | p :: ps => p ++ String sep (join sep ps)
  end.

(** The newline character ['\n']. *)
Definition nl : ascii := ascii_of_nat 10.

(** [str(n)] / f-string formatting of a non-negative [int]. *)
Definition str_of_nat (n : nat) : string :=
  NilZero.string_of_uint (Nat.to_uint n).

(** Every character of [s] is white space. *)
Fixpoint all_space (s : string) : bool :=
  match s with
  | EmptyString => true
  | String c r => isspace c && all_space r
  end.

(** [c in s] *)
Fixpoint has_char (c : ascii) (s : string) : bool :=
  match s with
  | EmptyString => false
  | String d r => Ascii.eqb d c || has_char c r
  end.

(** [s.count(c)] *)
Fixpoint count_char (c : ascii) (s : string) : nat :=
  match s with
  | EmptyString => O
  | String d r => ((if Ascii.eqb d c then 1 else 0) + count_char c r)%nat
  end.

(** [s[0]] and [s[-1]], when [s] is not empty. *)
Definition first_char (s : string) : option ascii :=
  match s with
  | EmptyString => None
  | String c _ => Some c
  end.

Fixpoint last_char (s : string) : option ascii :=
  match s with
  | EmptyString => None
  | String c r =>
      match last_char r with
      | None => Some c
      | Some d => Some d
      end
  end.

End PyStr.

(** ** Page geometry

    [Basic10Manual.__init__] calls [super().__init__()] with no
    argument and then [set_auto_page_break(auto=True, margin=20)].
    The base class documents its defaults as a portrait A4 page
    measured in millimetres with margins of 1 cm at the left, top and
    right; the bottom margin and the automatic break are the two
    values the Python file sets.  Lengths are integers in millimetres;
    font sizes are integers in points. *)
Definition page_w : Z := 210.
Definition page_h : Z := 297.
Definition l_margin : Z := 10.
Definition t_margin : Z := 10.
Definition r_margin : Z := 10.
Definition b_margin : Z := 20.
Definition auto_page_break : bool := true.
Definition page_break_trigger : Z := page_h - b_margin.

(** ** Engine state *)

Definition rgb : Type := (Z * Z * Z)%type.

Inductive align : Type := AlignL | AlignC | AlignR | AlignJ.

(** Which code is drawing: the caller's blocks, or one of the two
    decoration hooks while [add_page] / [close] runs it. *)
Inductive band : Type := Body | InHeader | InFooter.

(** The StyleContext: font family, style flags, size, text colour,
    fill colour. *)
Record style : Type := mkStyle {
  font_family : string;
  font_style : string;
  font_size_pt : Z;
  text_color : rgb;
  fill_color : rgb
}.

(** One placed cell: where it is, what it shows and in which style.
    [p_fill] is [None] when the cell is drawn without a background. *)
Record placed : Type := mkPlaced {
  p_page : nat;
  p_band : band;
  p_x : Z;
  p_y : Z;
  p_w : Z;
  p_h : Z;
  p_txt : string;
  p_align : align;
  p_border : bool;
  p_fill : option rgb;
  p_family : string;
  p_style : string;
  p_size : Z;
  p_color : rgb
}.

(** The document object: page index, cursor, height of the last cell,
    the hook being run, the style, and every cell placed so far. *)
Record pdf : Type := mkPdf {
  page_no : nat;
  get_x : Z;
  get_y : Z;
  lasth : Z;
  in_hook : band;
  sty : style;
  out : list placed
}.

Definition in_footer (st : pdf) : bool :=
  match in_hook st with InFooter => true | _ => false end.

(** The object right after [Basic10Manual()]: no page yet. *)
Definition new_pdf : pdf :=
  mkPdf 0 l_margin t_margin 0 Body
        (mkStyle "" "" 12 (0, 0, 0) (0, 0, 0)) [].

(** ** Drawing backend

    [Basic10Manual] inherits its drawing primitives from the [FPDF]
    base class of the [fpdf] package; the repository does not contain
    them.  Each primitive below is modelled from the specification of
    the layout engine (the PageFlowManager contract and the backend
    capabilities it lists): a purely vertical threshold check made by
    each draw call; on a break the footer hook runs on the page being
    closed, the header hook on the new page, the cursor restarts at
    the top margin and the StyleContext is put back. *)

(** Field updates of the document object. *)
Definition with_cursor (nx ny : Z) (st : pdf) : pdf :=
  mkPdf (page_no st) nx ny (lasth st) (in_hook st) (sty st) (out st).

Definition with_hook (b : band) (st : pdf) : pdf :=
  mkPdf (page_no st) (get_x st) (get_y st) (lasth st) b (sty st) (out st).

Definition with_sty (s : style) (st : pdf) : pdf :=
  mkPdf (page_no st) (get_x st) (get_y st) (lasth st) (in_hook st) s (out st).

(** Modelled from the spec: [set_x(x)] of the missing base class moves
    the abscissa of the cursor; a negative argument counts from the
    right edge. *)
Definition set_x (v : Z) (st : pdf) : pdf :=
  with_cursor (if 0 <=? v then v else page_w + v) (get_y st) st.

(** Modelled from the spec: [set_y(y)] of the missing base class moves
    the ordinate of the cursor; a negative argument counts from the
    bottom edge, and the abscissa goes back to the left margin. *)
Definition set_y (v : Z) (st : pdf) : pdf :=
  with_cursor l_margin (if 0 <=? v then v else page_h + v) st.

(** Modelled from the spec: the explicit style-setting calls of the
    missing base class, [set_font], [set_text_color] and
    [set_fill_color]; each changes its own part of the StyleContext and
    nothing else. *)
Definition set_font (family sty_flags : string) (size : Z) (st : pdf) : pdf :=
  with_sty (mkStyle family sty_flags size
                    (text_color (sty st)) (fill_color (sty st))) st.

Definition set_text_color (r g b : Z) (st : pdf) : pdf :=
  with_sty (mkStyle (font_family (sty st)) (font_style (sty st))
                    (font_size_pt (sty st)) (r, g, b) (fill_color (sty st))) st.

Definition set_fill_color (r g b : Z) (st : pdf) : pdf :=
  with_sty (mkStyle (font_family (sty st)) (font_style (sty st))
                    (font_size_pt (sty st)) (text_color (sty st)) (r, g, b)) st.

(** Modelled from the spec: [ln(h)] of the missing base class, the
    contract's [newLine]: back to the left margin and down by [h], or
    by the height of the last cell when no [h] is given.  No break
    check here: the next draw call makes it. *)
Definition ln (h : option Z) (st : pdf) : pdf :=
  with_cursor l_margin
              (get_y st + match h with Some v => v | None => lasth st end) st.

(** Modelled from the spec: the placing half of [cell] of the missing
    base class, without any break check.  A width of 0 extends the
    cell to the right margin.  [lnmode] is the [ln] argument of
    [cell]: 0 moves right, 1 goes to the start of the next line, 2
    goes below. *)
Definition draw_cell (w h : Z) (txt : string) (border : bool) (lnmode : nat)
           (al : align) (fill : bool) (st : pdf) : pdf :=
  let w' := if w =? 0 then page_w - r_margin - get_x st else w in
  let op := mkPlaced (page_no st) (in_hook st) (get_x st) (get_y st) w' h
                     txt al border
                     (if fill then Some (fill_color (sty st)) else None)
                     (font_family (sty st)) (font_style (sty st))
                     (font_size_pt (sty st)) (text_color (sty st)) in
  let nx := match lnmode with
            | O => get_x st + w'
            | S O => l_margin
            | _ => get_x st
            end in
  let ny := match lnmode with
            | O => get_y st
            | _ => get_y st + h
            end in
  mkPdf (page_no st) nx ny h (in_hook st) (sty st) (out st ++ [op])%list.

(** The type of [self.cell], through which the hooks draw. *)
Definition cell_fn : Type :=
  Z -> Z -> string -> bool -> nat -> align -> bool -> pdf -> pdf.

(** ** The decoration hooks of [Basic10Manual]

    [header] and [footer] draw through [self.cell]; the cell function
    is a parameter here so that [add_page] can run the hooks before
    [cell] (which calls [add_page]) is defined.  [header] and [footer]
    below close the loop, and [header_on_fresh_page] /
    [footer_in_footer] show that both readings agree where [add_page]
    runs them. *)

Definition header_title : string := "Basic-10 Compiler Documentation".

Definition footer_caption : string :=
  "Basic-10 v1.9.1 - BASIC to IC10 Compiler for Stationeers".

Definition header_with (cell : cell_fn) (st : pdf) : pdf :=
  if (1 <? page_no st)%nat then
    let st := set_font "Helvetica" "I" 9 st in
    let st := set_text_color 128 128 128 st in
    let st := cell 95 10 header_title false 0%nat AlignL false st in
    let st := cell 95 10 ("Page " ++ PyStr.str_of_nat (page_no st))
                   false 0%nat AlignR false st in
    let st := ln (Some 10) st in
    set_x 10 st
  else st.

Definition footer_with (cell : cell_fn) (st : pdf) : pdf :=
  let st := set_y (-15) st in
  let st := set_font "Helvetica" "I" 8 st in
  let st := set_text_color 128 128 128 st in
  cell 0 10 footer_caption false 0%nat AlignC false st.

(** ** Page transitions *)

(** Modelled from the spec: opening a page in the missing base class.
    The index grows by one and the cursor restarts at the top-left
    corner of the content area. *)
Definition begin_page (st : pdf) : pdf :=
  mkPdf (S (page_no st)) l_margin t_margin (lasth st) (in_hook st)
        (sty st) (out st).

(** Modelled from the spec: [add_page()] of the missing base class.
    Remember the style; if a page is open, run the footer hook on it;
    open the next page; run the header hook on it; put the remembered
    style back. *)
Definition add_page (st : pdf) : pdf :=
  let saved := sty st in
  let st1 := if (0 <? page_no st)%nat
             then with_hook Body (footer_with draw_cell (with_hook InFooter st))
             else st in
  let st2 := with_sty saved (begin_page st1) in
  let st3 := with_hook Body (header_with draw_cell (with_hook InHeader st2)) in
  with_sty saved st3.

(** Modelled from the spec: the break decision of the missing base
    class.  The cell of height [h] would end below the bottom margin,
    the footer is not being drawn, and automatic breaks are on. *)
Definition will_page_break (h : Z) (st : pdf) : bool :=
  (page_break_trigger <? get_y st + h) && negb (in_footer st)
  && auto_page_break.

(** Modelled from the spec: [cell(w, h, txt, border, ln, align, fill)]
    of the missing base class.  Break first when the cell does not
    fit (keeping the abscissa), then place the cell. *)
Definition cell : cell_fn :=
  fun w h txt border lnmode al fill st =>
    let st1 := if will_page_break h st
               then with_cursor (get_x st) (get_y (add_page st)) (add_page st)
               else st in
    draw_cell w h txt border lnmode al fill st1.

(** The hooks as the class defines them. *)
Definition header : pdf -> pdf := header_with cell.
Definition footer : pdf -> pdf := footer_with cell.

(** Modelled from the spec: [output()] of the missing base class closes
    the document.  A document without any page gets one, and the
    footer hook runs on the last page. *)
Definition close (st : pdf) : pdf :=
  let st1 := if (page_no st =? 0)%nat then add_page st else st in
  with_hook Body (footer_with draw_cell (with_hook InFooter st1)).

(** ** Results

    The table renderers index [widths] by column number; Python raises
    [IndexError] when [widths] is too short.  The exception leaves the
    document object as mutated so far.  This is the only exception the
    Python file itself can raise; the exceptions of the backend (a
    draw call with no page open or no font selected) are not
    modelled, so nothing below says when a run succeeds. *)
Inductive result : Type :=
| Done (st : pdf)
| IndexError (st : pdf).

Definition state_of (r : result) : pdf :=
  match r with Done st => st | IndexError st => st end.

Definition is_done (r : result) : bool :=
  match r with Done _ => true | IndexError _ => false end.

Definition bind (r : result) (k : pdf -> result) : result :=
  match r with Done st => k st | IndexError st => IndexError st end.

Section Manual.

(** The text measurer: how the backend breaks [txt] into lines for a
    cell of width [w] in the current font (family, style flags,
    size).  It is external and left abstract. *)
Variable wrap : string -> string -> Z -> Z -> string -> list string.

(** Modelled from the spec: [multi_cell(w, h, txt)] of the missing
    base class, the paragraph primitive.  One cell per wrapped line,
    each with its own break check, each going below the previous
    one; the cursor ends at the right edge of the cell, below the
    last line. *)
Definition multi_cell (w h : Z) (txt : string) (st : pdf) : pdf :=
  let w' := if w =? 0 then page_w - r_margin - get_x st else w in
  let st' := fold_left
               (fun s line => cell w' h line false 2%nat AlignJ false s)
               (wrap (font_family (sty st)) (font_style (sty st))
                     (font_size_pt (sty st)) w' txt) st in
  with_cursor (get_x st + w') (get_y st') st'.

(** *** Block renderers of [Basic10Manual] *)

Definition chapter_title (title : string) (st : pdf) : pdf :=
  let st := set_font "Helvetica" "B" 18 st in
  let st := set_text_color 0 100 180 st in
  let st := cell 0 12 title false 1%nat AlignL false st in
  ln (Some 4) st.

Definition section_title (title : string) (st : pdf) : pdf :=
  let st := set_font "Helvetica" "B" 14 st in
  let st := set_text_color 50 50 50 st in
  let st := cell 0 10 title false 1%nat AlignL false st in
  ln (Some 2) st.

Definition subsection_title (title : string) (st : pdf) : pdf :=
  let st := set_font "Helvetica" "B" 11 st in
  let st := set_text_color 80 80 80 st in
  let st := cell 0 8 title false 1%nat AlignL false st in
  ln (Some 1) st.

Definition body_text (text : string) (st : pdf) : pdf :=
  let st := set_font "Helvetica" "" 10 st in
  let st := set_text_color 0 0 0 st in
  let st := set_x 10 st in
  let st := multi_cell 0 5 text st in
  ln (Some 2) st.

(** The body of the [for line in lines] loop of [code_block]. *)
Definition code_line (st : pdf) (line : string) : pdf :=
  let st := set_x 10 st in
  cell 0 5 ("  " ++ line) false 1%nat AlignL true st.

Definition code_block (code : string) (st : pdf) : pdf :=
  let st := set_font "Courier" "" 9 st in
  let st := set_fill_color 240 240 240 st in
  let st := set_text_color 0 0 0 st in
  let lines := PyStr.split PyStr.nl (PyStr.strip code) in
  let st := fold_left code_line lines st in
  ln (Some 3) st.

Definition bullet_point (text : string) (st : pdf) : pdf :=
  let st := set_font "Helvetica" "" 10 st in
  let st := set_text_color 0 0 0 st in
  let st := set_x 10 st in
  multi_cell 0 5 ("  - " ++ text) st.

(** [for i, col in enumerate(cols): self.cell(widths[i], h, col,
    border=1, fill=True, align=al)], started at index [i]. *)
Fixpoint table_cells (h : Z) (al : align) (i : nat) (cols : list string)
         (widths : list Z) (st : pdf) : result :=
  match cols with
  | [] => Done st
  | col :: rest =>
      match nth_error widths i with
      | None => IndexError st
      | Some w =>
          table_cells h al (S i) rest widths
                      (cell w h col true 0%nat al true st)
      end
  end.

Definition table_header (cols : list string) (widths : list Z) (st : pdf)
  : result :=
  let st := set_font "Helvetica" "B" 9 st in
  let st := set_fill_color 0 100 180 st in
  let st := set_text_color 255 255 255 st in
  bind (table_cells 7 AlignC 0 cols widths st)
       (fun st => Done (ln None st)).

Definition table_row (cols : list string) (widths : list Z) (fill : bool)
           (st : pdf) : result :=
  let st := set_font "Courier" "" 8 st in
  let st := set_text_color 0 0 0 st in
  let st := if fill then set_fill_color 248 248 248 st
            else set_fill_color 255 255 255 st in
  bind (table_cells 6 AlignL 0 cols widths st)
       (fun st => Done (ln None st)).

(** The loop [create_documentation] runs for every table:
    [for i, row in enumerate(rows): pdf.table_row(row, widths, i % 2 == 0)],
    started at index [i]. *)
Fixpoint table_rows (i : nat) (rows : list (list string)) (widths : list Z)
         (st : pdf) : result :=
  match rows with
  | [] => Done st
  | row :: rest =>
      bind (table_row row widths (i mod 2 =? 0)%nat st)
           (table_rows (S i) rest widths)
  end.

(** *** Blocks and documents *)

Inductive block : Type :=
| ChapterTitle (title : string)
| SectionTitle (title : string)
| SubsectionTitle (title : string)
| BodyText (text : string)
| CodeBlock (code : string)
| BulletPoint (text : string)
| TableHeader (cols : list string) (widths : list Z)
| TableRow (cols : list string) (widths : list Z) (fill : bool).

Definition render (b : block) (st : pdf) : result :=
  match b with
  | ChapterTitle t => Done (chapter_title t st)
  | SectionTitle t => Done (section_title t st)
  | SubsectionTitle t => Done (subsection_title t st)
  | BodyText t => Done (body_text t st)
  | CodeBlock c => Done (code_block c st)
  | BulletPoint t => Done (bullet_point t st)
  | TableHeader cols widths => table_header cols widths st
  | TableRow cols widths fill => table_row cols widths fill st
  end.

(** What [create_documentation] does to the document object: block
    renderer calls and direct calls of backend primitives. *)
Inductive call : Type :=
| AddPage
| SetFont (family sty_flags : string) (size : Z)
| SetTextColor (r g b : Z)
| Ln (h : option Z)
| Cell (w h : Z) (txt : string) (al : align) (lnmode : nat)
| Block (b : block)
| TableRows (rows : list (list string)) (widths : list Z).

Definition step (c : call) (st : pdf) : result :=
  match c with
  | AddPage => Done (add_page st)
  | SetFont f s z => Done (set_font f s z st)
  | SetTextColor r g b => Done (set_text_color r g b st)
  | Ln h => Done (ln h st)
  | Cell w h txt al lnmode => Done (cell w h txt false lnmode al false st)
  | Block b => render b st
  | TableRows rows widths => table_rows 0 rows widths st
  end.

Fixpoint run (cs : list call) (st : pdf) : result :=
  match cs with
  | [] => Done st
  | c :: rest => bind (step c st) (run rest)
  end.

(** A generated document: the calls ran without exception and
    [output()] closed the last page. *)
Definition generate (cs : list call) : option pdf :=
  match run cs new_pdf with
  | Done st => Some (close st)
  | IndexError _ => None
  end.

(** *** Reading the placed cells *)

Definition is_body (o : placed) : bool :=
  match p_band o with Body => true | _ => false end.

Definition is_header (o : placed) : bool :=
  match p_band o with InHeader => true | _ => false end.

Definition is_footer (o : placed) : bool :=
  match p_band o with InFooter => true | _ => false end.

(** The cells the caller's blocks placed, decorations left out. *)
Definition content (l : list placed) : list placed := filter is_body l.

(** The decorations, blocks left out. *)
Definition decor (l : list placed) : list placed :=
  filter (fun o => negb (is_body o)) l.

Definition on_page (p : nat) (l : list placed) : list placed :=
  filter (fun o => (p_page o =? p)%nat) l.

(** The style a cell was drawn in. *)
Definition p_sty (o : placed) : string * string * Z * rgb :=
  (p_family o, p_style o, p_size o, p_color o).

End Manual.

(** ** The decorations of a page, as data *)

(** The footer cell of page [p]. *)
Definition footer_cell (p : nat) : placed :=
  mkPlaced p InFooter l_margin (page_h - 15) (page_w - l_margin - r_margin) 10
           footer_caption AlignC false None "Helvetica" "I" 8 (128, 128, 128).

(** The header cells of page [p]: none on page 1 (or 0), two after. *)
Definition header_cells (p : nat) : list placed :=
  if (1 <? p)%nat then
    [ mkPlaced p InHeader l_margin t_margin 95 10
               header_title AlignL false None "Helvetica" "I" 9 (128, 128, 128);
      mkPlaced p InHeader (l_margin + 95) t_margin 95 10
               ("Page " ++ PyStr.str_of_nat p) AlignR false None
               "Helvetica" "I" 9 (128, 128, 128) ]
  else [].

(** What a transition away from page [n] draws: the footer of page [n]
    (when there is such a page) and the header of page [n + 1]. *)
Definition transition_decor (n : nat) : list placed :=
  ((if (0 <? n)%nat then [footer_cell n] else []) ++ header_cells (S n))%list.

(** The decorations of a document with [n] pages opened, the last one
    still open. *)
Fixpoint opened_decor (n : nat) : list placed :=
  match n with
  | O => []
  | S m => (opened_decor m ++ transition_decor m)%list
  end.

(** The decorations of a closed document of [n] pages: page by page,
    the header cells and then the footer cell. *)
Definition full_decor (n : nat) : list placed :=
  flat_map (fun p => (header_cells p ++ [footer_cell p])%list) (seq 1 n).

(** The cell that [cell] places from state [st]: on the current page
    when it fits, at the top of the next page otherwise. *)
Definition cell_at (w h : Z) (txt : string) (border : bool) (al : align)
           (fill : bool) (st : pdf) : placed :=
  let brk := will_page_break h st in
  mkPlaced (if brk then S (page_no st) else page_no st)
           (if brk then Body else in_hook st)
           (get_x st)
           (if brk then get_y (add_page st) else get_y st)
           (if w =? 0 then page_w - r_margin - get_x st else w) h
           txt al border
           (if fill then Some (fill_color (sty st)) else None)
           (font_family (sty st)) (font_style (sty st))
           (font_size_pt (sty st)) (text_color (sty st)).

(** Everything about a placed cell except its page and ordinate. *)
Definition shape (o : placed)
  : Z * Z * Z * string * align * bool * option rgb
    * (string * string * Z * rgb) :=
  (p_x o, p_w o, p_h o, p_txt o, p_align o, p_border o, p_fill o, p_sty o).

(** The bottom edge of the last cell placed. *)
Definition last_bottom (st : pdf) : Z :=
  match rev (out st) with
  | o :: _ => p_y o + p_h o
  | [] => 0
  end.

(** The font size of the last cell placed. *)
Definition last_size (st : pdf) : Z :=
  match rev (out st) with
  | o :: _ => p_size o
  | [] => 0
  end.

(** Two document objects that differ at most in the StyleContext. *)
Definition same_layout (a b : pdf) : Prop :=
  page_no a = page_no b /\ get_x a = get_x b /\ get_y a = get_y b
  /\ lasth a = lasth b /\ in_hook a = in_hook b /\ out a = out b.

(** The StyleContext with the fill colour blanked out. *)
Definition drop_fill (st : pdf) : pdf := set_fill_color 0 0 0 st.

(** ** Sample inputs *)

(** A text measurer that never wraps. *)
Definition demo_wrap (family flags : string) (size w : Z) (txt : string)
  : list string := [txt].

(** A document with its first page open, and the same with exactly 12
    units left above the bottom margin. *)
Definition demo_start : pdf := add_page new_pdf.

Definition demo_low : pdf :=
  with_cursor l_margin (page_break_trigger - 12) demo_start.

(** Three code lines, and the same framed by blank lines and spaces
    with a blank line in the middle. *)
Definition demo_code : string :=
  "l1" ++ String PyStr.nl ("l2" ++ String PyStr.nl "l3").

Definition demo_framed : string :=
  String PyStr.nl "  "
  ++ PyStr.join PyStr.nl ["a"; ""; "b"]
  ++ String " " (String PyStr.nl "").

(** A short manual: a title, a table of sixty rows (which runs over
    the first page) and a paragraph. *)
Definition demo_calls : list call :=
  [ AddPage;
    Block (ChapterTitle "Operators");
    Block (TableHeader ["Operator"; "IC10"] [50; 100]);
    TableRows (repeat ["a + b"; "add"] 60) [50; 100];
    Block (BodyText "Done.") ].

Definition demo_doc : pdf :=
  close (state_of (run demo_wrap demo_calls new_pdf)).

(** The first calls of [create_documentation] (the title page, with
    its direct backend calls) followed by the short manual. *)
Definition demo_manual : list call :=
  ([ AddPage;
     SetFont "Helvetica" "B" 36;
     SetTextColor 0 100 180;
     Ln (Some 60);
     Cell 0 20 "Basic-10" AlignC 1%nat;
     SetFont "Helvetica" "" 18;
     SetTextColor 80 80 80;
     Cell 0 10 "BASIC to IC10 MIPS Compiler" AlignC 1%nat;
     Ln (Some 20) ]
   ++ demo_calls)%list.

Definition demo_manual_doc : pdf :=
  close (state_of (run demo_wrap demo_manual new_pdf)).

(** A page with 2 units left above the bottom margin. *)
Definition demo_bottom : pdf :=
  with_cursor l_margin (page_break_trigger - 2) demo_start.

(** Two entries of the table of contents, and the same titles with
    other page numbers. *)
Definition demo_toc : list (string * nat) :=
  [("1. Introduction", 3%nat); ("2. Getting Started", 4%nat)].

Definition demo_toc' : list (string * nat) :=
  [("1. Introduction", 0%nat); ("2. Getting Started", 0%nat)].

(** ** Auxiliary descriptions of what the renderers place *)

(** The shape of one code line drawn in style [s]: at the left margin,
    as wide as the content area, 5 high, indented by two spaces, filled
    with the current fill colour. *)
Definition code_line_shape (s : style) (line : string) :=
  (l_margin, page_w - l_margin - r_margin, 5, "  " ++ line, AlignL, false,
   Some (fill_color s),
   (font_family s, font_style s, font_size_pt s, text_color s)).

(** The cells the loop of [code_block] places, one per line. *)
Fixpoint code_cells (lines : list string) (st : pdf) : list placed :=
  match lines with
  | [] => []
  | l :: ls =>
      cell_at 0 5 ("  " ++ l) false AlignL true (set_x 10 st)
      :: code_cells ls (code_line st l)
  end.

(** A code line of [code_block] as placed on page [p] at ordinate [cy]. *)
Definition code_cell (p : nat) (cy : Z) (line : string) : placed :=
  mkPlaced p Body l_margin cy (page_w - l_margin - r_margin) 5
           ("  " ++ line) AlignL false (Some (240, 240, 240))
           "Courier" "" 9 (0, 0, 0).

(** The cells the loop of a table renderer places before it ends or
    raises. *)
Fixpoint row_cells (h : Z) (al : align) (i : nat) (cols : list string)
         (widths : list Z) (st : pdf) : list placed :=
  match cols with
  | [] => []
  | col :: rest =>
      match nth_error widths i with
      | None => []
      | Some w =>
          cell_at w h col true al true st
          :: row_cells h al (S i) rest widths
               (cell w h col true 0%nat al true st)
      end
  end.

(** The text and the background of a placed cell. *)
Definition txt_fill (o : placed) : string * option rgb := (p_txt o, p_fill o).

(** The fill colour [table_row] selects. *)
Definition stripe (fill : bool) : rgb :=
  if fill then (248, 248, 248) else (255, 255, 255).

(** The style [table_row] sets before its loop. *)
Definition row_prelude (fill : bool) (st : pdf) : pdf :=
  let st := set_font "Courier" "" 8 st in
  let st := set_text_color 0 0 0 st in
  if fill then set_fill_color 248 248 248 st
  else set_fill_color 255 255 255 st.

(** The style [table_header] sets before its loop. *)
Definition header_prelude (st : pdf) : pdf :=
  let st := set_font "Helvetica" "B" 9 st in
  let st := set_fill_color 0 100 180 st in
  set_text_color 255 255 255 st.

(** The cells a striped table shows: row [k] in the colour of its
    index parity, rows numbered from [i]. *)
Fixpoint striped (i : nat) (rows : list (list string))
  : list (string * option rgb) :=
  match rows with
  | [] => []
  | row :: rest =>
      (map (fun c => (c, Some (stripe (Nat.even i)))) row
       ++ striped (S i) rest)%list
  end.

(** The running decorations are a function of the page count alone. *)
Definition decor_inv (st : pdf) : Prop :=
  in_hook st = Body /\ decor (out st) = opened_decor (page_no st).

(** The style each block renderer sets, and the background it draws
    its cells with ([None]: no background). *)
Definition block_style (b : block) : string * string * Z * rgb :=
  match b with
  | ChapterTitle _ => ("Helvetica", "B", 18, (0, 100, 180))
  | SectionTitle _ => ("Helvetica", "B", 14, (50, 50, 50))
  | SubsectionTitle _ => ("Helvetica", "B", 11, (80, 80, 80))
  | BodyText _ => ("Helvetica", "", 10, (0, 0, 0))
  | CodeBlock _ => ("Courier", "", 9, (0, 0, 0))
  | BulletPoint _ => ("Helvetica", "", 10, (0, 0, 0))
  | TableHeader _ _ => ("Helvetica", "B", 9, (255, 255, 255))
  | TableRow _ _ _ => ("Courier", "", 8, (0, 0, 0))
  end.

Definition block_fill (b : block) : option rgb :=
  match b with
  | CodeBlock _ => Some (240, 240, 240)
  | TableHeader _ _ => Some (0, 100, 180)
  | TableRow _ _ fill => Some (stripe fill)
  | _ => None
  end.

(** A cell drawn in style [S], with a background exactly when [fl]. *)
Definition styled (S : style) (fl : bool) (o : placed) : Prop :=
  p_sty o = (font_family S, font_style S, font_size_pt S, text_color S)
  /\ p_fill o = if fl then Some (fill_color S) else None.

(** The caller is drawing in style [S], and the content placed since
    [base] is all [styled]. *)
Definition styled_inv (S : style) (fl : bool) (base : list placed) (st : pdf)
  : Prop :=
  in_hook st = Body /\ sty st = S
  /\ exists new,
      content (out st) = (base ++ new)%list /\ Forall (styled S fl) new.

(** ** Further descriptions: bounds, order, layout *)

(** The loop that prints the table of contents in
    [create_documentation]:
    [for item, page in toc: pdf.cell(0, 7, f'{item}', ln=True)]. *)
Definition toc_lines (toc : list (string * nat)) (st : pdf) : pdf :=
  fold_left
    (fun s entry => cell 0 7 (fst entry) false 1%nat AlignL false s)
    toc st.

(** Where the content area of page [p] starts: under the header on
    every page after the first. *)
Definition content_top (p : nat) : Z :=
  if (1 <? p)%nat then t_margin + 10 else t_margin.

(** A cell that lies in the content area of its page. *)
Definition within (o : placed) : Prop :=
  content_top (p_page o) <= p_y o
  /\ p_y o + p_h o <= page_break_trigger.

(** The caller is drawing, the cursor is in the content area, and all
    the content placed so far lies in the content area. *)
Definition inside (st : pdf) : Prop :=
  in_hook st = Body
  /\ content_top (page_no st) <= get_y st
  /\ 0 <= lasth st
  /\ Forall within (content (out st)).

(** Two cells that do not overlap vertically. *)
Definition v_disjoint (a b : placed) : Prop :=
  p_y a + p_h a <= p_y b \/ p_y b + p_h b <= p_y a.

(** Direct backend calls that stay in the content area: a line feed
    that does not move up, a cell that is not higher than the content
    area of a page with a header. *)
Definition tame (c : call) : Prop :=
  match c with
  | Ln (Some h) => 0 <= h
  | Cell _ h _ _ _ => 0 <= h <= page_break_trigger - (t_margin + 10)
  | _ => True
  end.

(** Cells in page order: pages never decrease along the list, starting
    at page [lo] or later. *)
Fixpoint ordered_from (lo : nat) (l : list placed) : Prop :=
  match l with
  | [] => True
  | o :: r => (lo <= p_page o)%nat /\ ordered_from (p_page o) r
  end.

(** Code lines stacked on page [p] from ordinate [cy] down, 5 apart. *)
Fixpoint stacked (p : nat) (cy : Z) (lines : list string) : list placed :=
  match lines with
  | [] => []
  | l :: ls => code_cell p cy l :: stacked p (cy + 5) ls
  end.


(** The cells [multi_cell] places, one per wrapped line. *)
Fixpoint para_cells (w h : Z) (lines : list string) (st : pdf) : list placed :=
  match lines with
  | [] => []
  | l :: ls =>
      cell_at w h l false AlignJ false st
      :: para_cells w h ls (cell w h l false 2%nat AlignJ false st)
  end.

(** The shape of one paragraph line: at the left margin, as wide as the
    content area, 5 high, Helvetica 10 in black, no background. *)
Definition para_line_shape (line : string) :=
  (l_margin, page_w - l_margin - r_margin, 5, line, AlignJ, false,
   @None rgb, ("Helvetica", "", 10, (0, 0, 0))).

(** The style a renderer leaves behind: its own font and text colour,
    and its own fill colour when it sets one. *)
Definition style_after (b : block) (s : style) : style :=
  match block_style b with
  | (family, flags, size, color) =>
      mkStyle family flags size color
              (match block_fill b with
               | Some c => c
               | None => fill_color s
               end)
  end.

(** State [s] continues state [st0]: everything placed in [st0] is
    still there, in place, and what was added since is in page order,
    on the pages from the one open in [st0] to the one open in [s]. *)
Definition grows_from (st0 s : pdf) : Prop :=
  (page_no st0 <= page_no s)%nat
  /\ exists new,
      out s = (out st0 ++ new)%list
      /\ ordered_from (page_no st0) new
      /\ Forall (fun o => (p_page o <= page_no s)%nat) new.

(** ** The methods of the class *)





(** * Properties *)

(** ** Page transitions *)

Lemma add_page_out (st : pdf) :
  out (add_page st) = (out st ++ transition_decor (page_no st))%list.
Proof.
  destruct st as [p cx cy lh hk s o]; destruct p as [|p]; cbn.
  - rewrite app_nil_r; reflexivity.
  - rewrite <- !app_assoc; reflexivity.
Qed.

Lemma add_page_sty (st : pdf) : sty (add_page st) = sty st.
Proof. reflexivity. Qed.

Lemma add_page_hook (st : pdf) : in_hook (add_page st) = Body.
Proof. reflexivity. Qed.

Lemma add_page_page_no (st : pdf) : page_no (add_page st) = S (page_no st).
Proof.
  destruct st as [p cx cy lh hk s o]; destruct p as [|p]; reflexivity.
Qed.

Lemma add_page_x (st : pdf) : get_x (add_page st) = l_margin.
Proof.
  destruct st as [p cx cy lh hk s o]; destruct p as [|p]; reflexivity.
Qed.

Lemma add_page_y (st : pdf) :
  get_y (add_page st) = if (0 <? page_no st)%nat then t_margin + 10 else t_margin.
Proof.
  destruct st as [p cx cy lh hk s o]; destruct p as [|p]; reflexivity.
Qed.

(** ** One cell *)

Lemma cell_out w h txt border lnmode al fill (st : pdf) :
  out (cell w h txt border lnmode al fill st)
  = (out st
     ++ (if will_page_break h st then transition_decor (page_no st) else [])
     ++ [cell_at w h txt border al fill st])%list.
Proof.
  unfold cell, cell_at.
  destruct (will_page_break h st) eqn:B.
  - cbn [draw_cell out with_cursor get_x get_y page_no in_hook sty].
    rewrite add_page_out, add_page_page_no, <- app_assoc. reflexivity.
  - reflexivity.
Qed.

Lemma cell_no_break w h txt border lnmode al fill (st : pdf) :
  will_page_break h st = false ->
  cell w h txt border lnmode al fill st
  = draw_cell w h txt border lnmode al fill st.
Proof. intro H. unfold cell. rewrite H. reflexivity. Qed.

Lemma cell_sty w h txt border lnmode al fill (st : pdf) :
  sty (cell w h txt border lnmode al fill st) = sty st.
Proof. unfold cell. destruct (will_page_break h st); reflexivity. Qed.

Lemma cell_hook w h txt border lnmode al fill (st : pdf) :
  in_hook st = Body -> in_hook (cell w h txt border lnmode al fill st) = Body.
Proof. unfold cell. destruct (will_page_break h st); intro H; [reflexivity | exact H]. Qed.

Lemma cell_page_no w h txt border lnmode al fill (st : pdf) :
  page_no (cell w h txt border lnmode al fill st)
  = if will_page_break h st then S (page_no st) else page_no st.
Proof.
  unfold cell. destruct (will_page_break h st); [|reflexivity].
  cbn [draw_cell page_no with_cursor]. apply add_page_page_no.
Qed.

Lemma cell_lasth w h txt border lnmode al fill (st : pdf) :
  lasth (cell w h txt border lnmode al fill st) = h.
Proof. reflexivity. Qed.

Lemma cell_y w h txt border lnmode al fill (st : pdf) :
  get_y (cell w h txt border lnmode al fill st)
  = p_y (cell_at w h txt border al fill st)
    + match lnmode with O => 0 | _ => h end.
Proof.
  unfold cell, cell_at.
  destruct (will_page_break h st); destruct lnmode as [|[|n]]; cbn; lia.
Qed.

Lemma cell_x w h txt border lnmode al fill (st : pdf) :
  get_x (cell w h txt border lnmode al fill st)
  = match lnmode with
    | O => get_x st + p_w (cell_at w h txt border al fill st)
    | S O => l_margin
    | _ => get_x st
    end.
Proof.
  unfold cell, cell_at.
  destruct (will_page_break h st); destruct lnmode as [|[|n]]; reflexivity.
Qed.

Lemma content_app (a b : list placed) :
  content (a ++ b) = (content a ++ content b)%list.
Proof. apply filter_app. Qed.

Lemma decor_app (a b : list placed) :
  decor (a ++ b) = (decor a ++ decor b)%list.
Proof. apply filter_app. Qed.

Lemma content_transition (n : nat) : content (transition_decor n) = [].
Proof. destruct n as [|[|n]]; reflexivity. Qed.

Lemma decor_transition (n : nat) : decor (transition_decor n) = transition_decor n.
Proof. destruct n as [|[|n]]; reflexivity. Qed.

Lemma cell_at_band w h txt border al fill (st : pdf) :
  in_hook st = Body -> p_band (cell_at w h txt border al fill st) = Body.
Proof. unfold cell_at; cbn. intros ->. destruct (will_page_break h st); reflexivity. Qed.

(** A cell drawn by the caller adds exactly one content cell. *)
Lemma cell_content w h txt border lnmode al fill (st : pdf) :
  in_hook st = Body ->
  content (out (cell w h txt border lnmode al fill st))
  = (content (out st) ++ [cell_at w h txt border al fill st])%list.
Proof.
  intros Hb. rewrite cell_out, !content_app.
  assert (E : content (if will_page_break h st
                       then transition_decor (page_no st) else []) = []).
  { destruct (will_page_break h st); [apply content_transition | reflexivity]. }
  rewrite E. cbn [app]. f_equal.
  unfold content; cbn [filter]. unfold is_body.
  rewrite (cell_at_band w h txt border al fill st Hb). reflexivity.
Qed.

(** ... and, when it breaks the page, the decorations of the transition. *)
Lemma cell_decor w h txt border lnmode al fill (st : pdf) :
  in_hook st = Body ->
  decor (out (cell w h txt border lnmode al fill st))
  = (decor (out st)
     ++ if will_page_break h st then transition_decor (page_no st) else [])%list.
Proof.
  intros Hb. rewrite cell_out, !decor_app.
  assert (E : decor [cell_at w h txt border al fill st] = []).
  { unfold decor; cbn [filter]. unfold is_body.
    rewrite (cell_at_band w h txt border al fill st Hb). reflexivity. }
  rewrite E, app_nil_r. f_equal.
  destruct (will_page_break h st); [apply decor_transition | reflexivity].
Qed.

Lemma cell_at_shape w h txt border al fill (st : pdf) :
  shape (cell_at w h txt border al fill st)
  = (get_x st, (if w =? 0 then page_w - r_margin - get_x st else w), h, txt,
     al, border, (if fill then Some (fill_color (sty st)) else None),
     (font_family (sty st), font_style (sty st), font_size_pt (sty st),
      text_color (sty st))).
Proof. reflexivity. Qed.

(** A cell that fits on an empty page is placed wholly above the bottom
    margin, whether or not it broke the page. *)
Lemma cell_at_fits w h txt border al fill (st : pdf) :
  in_hook st = Body -> t_margin + 10 + h <= page_break_trigger ->
  p_y (cell_at w h txt border al fill st) + h <= page_break_trigger.
Proof.
  intros Hb Hh. unfold cell_at; cbn [p_y].
  destruct (will_page_break h st) eqn:B.
  - rewrite add_page_y. destruct (0 <? page_no st)%nat; unfold t_margin in *; lia.
  - unfold will_page_break, in_footer in B. rewrite Hb in B.
    cbn in B. rewrite !andb_true_r in B. apply Z.ltb_ge in B.
    unfold page_break_trigger, page_h, b_margin. lia.
Qed.

(** ** Code blocks *)

Lemma code_line_hook (st : pdf) (l : string) :
  in_hook st = Body -> in_hook (code_line st l) = Body.
Proof. intro H. unfold code_line. apply cell_hook. exact H. Qed.

Lemma code_line_sty (st : pdf) (l : string) : sty (code_line st l) = sty st.
Proof. unfold code_line. rewrite cell_sty. reflexivity. Qed.

Lemma code_lines_hook (lines : list string) (st : pdf) :
  in_hook st = Body -> in_hook (fold_left code_line lines st) = Body.
Proof.
  revert st. induction lines as [|l ls IH]; intros st H; cbn [fold_left].
  - exact H.
  - apply IH, code_line_hook, H.
Qed.

Lemma code_lines_sty (lines : list string) (st : pdf) :
  sty (fold_left code_line lines st) = sty st.
Proof.
  revert st. induction lines as [|l ls IH]; intros st; cbn [fold_left].
  - reflexivity.
  - rewrite IH. apply code_line_sty.
Qed.

Lemma code_line_content (st : pdf) (l : string) :
  in_hook st = Body ->
  content (out (code_line st l))
  = (content (out st)
     ++ [cell_at 0 5 ("  " ++ l) false AlignL true (set_x 10 st)])%list.
Proof.
  intro H. unfold code_line. rewrite cell_content by exact H. reflexivity.
Qed.

Lemma code_lines_content (lines : list string) (st : pdf) :
  in_hook st = Body ->
  content (out (fold_left code_line lines st))
  = (content (out st) ++ code_cells lines st)%list.
Proof.
  revert st. induction lines as [|l ls IH]; intros st H; cbn [fold_left code_cells].
  - rewrite app_nil_r. reflexivity.
  - rewrite IH by (apply code_line_hook, H).
    rewrite code_line_content by exact H.
    rewrite <- app_assoc. reflexivity.
Qed.

Lemma code_cells_shape (lines : list string) (st : pdf) :
  map shape (code_cells lines st) = map (code_line_shape (sty st)) lines.
Proof.
  revert st. induction lines as [|l ls IH]; intros st; cbn [code_cells map].
  - reflexivity.
  - rewrite IH, code_line_sty. f_equal.
Qed.

Lemma code_block_content (code : string) (st : pdf) :
  in_hook st = Body ->
  content (out (code_block code st))
  = (content (out st)
     ++ code_cells (PyStr.split PyStr.nl (PyStr.strip code))
          (set_text_color 0 0 0
             (set_fill_color 240 240 240 (set_font "Courier" "" 9 st))))%list.
Proof.
  intro H. unfold code_block. cbn [ln out with_cursor].
  rewrite code_lines_content by exact H. reflexivity.
Qed.

(** ** Python string facts *)

Module PyStrFacts.
Import PyStr.

Lemma split_nonempty (sep : ascii) (s : string) : split sep s <> [].
Proof.
  destruct s as [|c r]; cbn; [discriminate|].
  destruct (Ascii.eqb c sep); [discriminate|].
  destruct (split sep r); discriminate.
Qed.

(** Splitting loses nothing: joining the pieces gives the string back. *)
Lemma join_split (sep : ascii) (s : string) : join sep (split sep s) = s.
Proof.
  induction s as [|c r IH]; [reflexivity|].
  cbn [split]. destruct (Ascii.eqb c sep) eqn:E.
  - apply Ascii.eqb_eq in E. subst c.
    pose proof (split_nonempty sep r) as N.
    destruct (split sep r) as [|l ls]; [contradiction|].
    cbn [join] in *. cbn. rewrite IH. reflexivity.
  - pose proof (split_nonempty sep r) as N.
    destruct (split sep r) as [|l ls]; [contradiction|].
    cbn [join] in *. destruct ls as [|l' ls'].
    + rewrite IH. reflexivity.
    + cbn. rewrite <- IH. reflexivity.
Qed.

(** No piece contains the separator. *)
Lemma split_no_sep (sep : ascii) (s : string) :
  Forall (fun l => has_char sep l = false) (split sep s).
Proof.
  induction s as [|c r IH]; cbn [split].
  - constructor; [reflexivity | constructor].
  - destruct (Ascii.eqb c sep) eqn:E.
    + constructor; [reflexivity | exact IH].
    + destruct (split sep r) as [|l ls].
      * constructor; [cbn; rewrite E; reflexivity | constructor].
      * inversion IH as [|? ? Hl Hls]; subst.
        constructor; [cbn; rewrite E, Hl; reflexivity | exact Hls].
Qed.

(** The pieces are exactly the separator-free runs: one more piece
    than there are separators. *)
Lemma split_length (sep : ascii) (s : string) :
  List.length (split sep s) = S (count_char sep s).
Proof.
  induction s as [|c r IH]; [reflexivity|].
  cbn [split count_char]. destruct (Ascii.eqb c sep).
  - cbn. rewrite IH. reflexivity.
  - pose proof (split_nonempty sep r) as N.
    destruct (split sep r) as [|l ls]; [contradiction|].
    cbn in *. exact IH.
Qed.

Lemma lstrip_decomp (s : string) :
  exists pre, s = pre ++ lstrip s /\ all_space pre = true.
Proof.
  induction s as [|c r [pre [E A]]].
  - exists EmptyString. split; reflexivity.
  - cbn [lstrip]. destruct (isspace c) eqn:W.
    + exists (String c pre). cbn. rewrite W, A, <- E. split; reflexivity.
    + exists EmptyString. split; reflexivity.
Qed.

Lemma lstrip_first (s : string) (c : ascii) :
  first_char (lstrip s) = Some c -> isspace c = false.
Proof.
  induction s as [|d r IH]; cbn [lstrip]; [discriminate|].
  destruct (isspace d) eqn:W; [exact IH|].
  cbn. intros [= <-]. exact W.
Qed.

Lemma rstrip_decomp (s : string) :
  exists post, s = rstrip s ++ post /\ all_space post = true.
Proof.
  induction s as [|c r [post [E A]]].
  - exists EmptyString. split; reflexivity.
  - cbn [rstrip]. destruct (rstrip r) as [|d t] eqn:R.
    + destruct (isspace c) eqn:W.
      * exists (String c post). cbn in *. rewrite W, A, <- E. split; reflexivity.
      * exists post. cbn in *. split; [f_equal; exact E | exact A].
    + exists post. cbn in *. split; [f_equal; exact E | exact A].
Qed.

Lemma rstrip_last (s : string) (c : ascii) :
  last_char (rstrip s) = Some c -> isspace c = false.
Proof.
  revert c. induction s as [|d r IH]; intros c; cbn [rstrip]; [discriminate|].
  destruct (rstrip r) as [|e t] eqn:R.
  - destruct (isspace d) eqn:W; cbn; [discriminate|].
    intros [= <-]. exact W.
  - specialize (IH c).
    change (last_char (String d (String e t)))
      with (match last_char (String e t) with
            | None => Some d
            | Some x => Some x
            end).
    destruct (last_char (String e t)) as [x|] eqn:L.
    + exact IH.
    + cbn in L. destruct (last_char t); discriminate.
Qed.

Lemma rstrip_first (s : string) (c : ascii) :
  first_char (rstrip s) = Some c -> first_char s = Some c.
Proof.
  destruct s as [|d r]; cbn [rstrip]; [discriminate|].
  destruct (rstrip r); [destruct (isspace d)|]; cbn; congruence.
Qed.

Lemma append_assoc (a b c : string) : (a ++ b) ++ c = a ++ (b ++ c).
Proof. induction a as [|x a IH]; cbn; [reflexivity | rewrite IH; reflexivity]. Qed.

(** [strip] removes a white-space prefix and a white-space suffix and
    nothing else. *)
Lemma strip_decomp (s : string) :
  exists pre post,
    s = pre ++ strip s ++ post
    /\ all_space pre = true /\ all_space post = true.
Proof.
  destruct (lstrip_decomp s) as [pre [E1 A1]].
  destruct (rstrip_decomp (lstrip s)) as [post [E2 A2]].
  exists pre, post. unfold strip. rewrite <- E2, <- E1. auto.
Qed.

Lemma strip_first (s : string) (c : ascii) :
  first_char (strip s) = Some c -> isspace c = false.
Proof. intro H. apply (lstrip_first s), rstrip_first, H. Qed.

Lemma strip_last (s : string) (c : ascii) :
  last_char (strip s) = Some c -> isspace c = false.
Proof. apply rstrip_last. Qed.

End PyStrFacts.

(** ** Invariants of the whole composition

    Every call of [create_documentation] is built from four kinds of
    state change: moving the cursor, changing the style, drawing a cell
    and adding a page.  A predicate stable under these four is stable
    under every renderer and every run. *)
Section Preservation.

Variable wrap : string -> string -> Z -> Z -> string -> list string.
Variable P : pdf -> Prop.

Hypothesis P_cursor : forall nx ny st, P st -> P (with_cursor nx ny st).
Hypothesis P_sty : forall s st, P st -> P (with_sty s st).
Hypothesis P_cell :
  forall w h txt border lnmode al fill st,
    P st -> P (cell w h txt border lnmode al fill st).
Hypothesis P_add_page : forall st, P st -> P (add_page st).

Local Ltac prim :=
  cbv zeta;
  repeat first
    [ assumption
    | apply P_add_page
    | apply P_cell
    | apply P_cursor
    | apply P_sty ].

Lemma P_cells (f : pdf -> string -> pdf) (lines : list string) (st : pdf) :
  (forall s l, P s -> P (f s l)) -> P st -> P (fold_left f lines st).
Proof.
  intros Hf. revert st.
  induction lines as [|l ls IH]; intros st H; cbn [fold_left]; auto.
Qed.

Lemma P_multi_cell w h txt st : P st -> P (multi_cell wrap w h txt st).
Proof.
  intros H. unfold multi_cell. apply P_cursor.
  apply P_cells; [intros; prim | exact H].
Qed.

Lemma P_table_cells h al i cols widths st :
  P st -> P (state_of (table_cells h al i cols widths st)).
Proof.
  revert i st. induction cols as [|c cs IH]; intros i st H; cbn [table_cells].
  - exact H.
  - destruct (nth_error widths i); [apply IH; prim | exact H].
Qed.

Lemma P_bind_ln r : P (state_of r) ->
  P (state_of (bind r (fun st => Done (ln None st)))).
Proof. destruct r; cbn [bind state_of]; intros H; [unfold ln; prim | exact H]. Qed.

Lemma P_table_header cols widths st :
  P st -> P (state_of (table_header cols widths st)).
Proof.
  intros H. unfold table_header. apply P_bind_ln, P_table_cells.
  unfold set_text_color, set_fill_color, set_font. prim.
Qed.

Lemma P_table_row cols widths fill st :
  P st -> P (state_of (table_row cols widths fill st)).
Proof.
  intros H. unfold table_row. apply P_bind_ln, P_table_cells.
  destruct fill; unfold set_text_color, set_fill_color, set_font; prim.
Qed.

Lemma P_table_rows rows widths i st :
  P st -> P (state_of (table_rows i rows widths st)).
Proof.
  revert i st. induction rows as [|r rs IH]; intros i st H; cbn [table_rows].
  - exact H.
  - pose proof (P_table_row r widths (i mod 2 =? 0)%nat st H) as Hr.
    destruct (table_row r widths (i mod 2 =? 0)%nat st); cbn [bind state_of] in *.
    + apply IH, Hr.
    + exact Hr.
Qed.

Lemma P_render b st : P st -> P (state_of (render wrap b st)).
Proof.
  intros H. destruct b; cbn [render state_of].
  - unfold chapter_title, ln, set_text_color, set_font. prim.
  - unfold section_title, ln, set_text_color, set_font. prim.
  - unfold subsection_title, ln, set_text_color, set_font. prim.
  - unfold body_text, ln. apply P_cursor, P_multi_cell.
    unfold set_x, set_text_color, set_font. prim.
  - unfold code_block, ln. apply P_cursor, P_cells.
    + intros s l Hs. unfold code_line, set_x. prim.
    + unfold set_text_color, set_fill_color, set_font. prim.
  - unfold bullet_point. apply P_multi_cell.
    unfold set_x, set_text_color, set_font. prim.
  - apply P_table_header, H.
  - apply P_table_row, H.
Qed.

Lemma P_step c st : P st -> P (state_of (step wrap c st)).
Proof.
  intros H. destruct c; cbn [step state_of].
  - prim.
  - unfold set_font. prim.
  - unfold set_text_color. prim.
  - unfold ln. prim.
  - prim.
  - apply P_render, H.
  - apply P_table_rows, H.
Qed.

Lemma P_run cs st : P st -> P (state_of (run wrap cs st)).
Proof.
  revert st. induction cs as [|c rest IH]; intros st H; cbn [run].
  - exact H.
  - pose proof (P_step c st H) as Hc.
    destruct (step wrap c st); cbn [bind state_of] in *.
    + apply IH, Hc.
    + exact Hc.
Qed.

End Preservation.

Lemma decor_inv_cell w h txt border lnmode al fill st :
  decor_inv st -> decor_inv (cell w h txt border lnmode al fill st).
Proof.
  intros [Hb Hd]. split; [apply cell_hook, Hb|].
  rewrite cell_decor by exact Hb. rewrite cell_page_no, Hd.
  destruct (will_page_break h st); [reflexivity | apply app_nil_r].
Qed.

Lemma decor_inv_add_page st : decor_inv st -> decor_inv (add_page st).
Proof.
  intros [Hb Hd]. split; [reflexivity|].
  rewrite add_page_out, decor_app, decor_transition, add_page_page_no, Hd.
  reflexivity.
Qed.

Lemma decor_inv_run wrap cs st :
  decor_inv st -> decor_inv (state_of (run wrap cs st)).
Proof.
  apply P_run.
  - intros nx ny s H; exact H.
  - intros s0 s H; exact H.
  - intros; apply decor_inv_cell; assumption.
  - apply decor_inv_add_page.
Qed.

(** ** Closing the document *)

Lemma full_decor_S (n : nat) :
  full_decor (S n)
  = (full_decor n ++ header_cells (S n) ++ [footer_cell (S n)])%list.
Proof.
  unfold full_decor. rewrite seq_S, flat_map_app. cbn [flat_map Nat.add].
  rewrite app_nil_r. reflexivity.
Qed.

Lemma opened_full (n : nat) :
  (1 <= n)%nat -> (opened_decor n ++ [footer_cell n])%list = full_decor n.
Proof.
  induction n as [|m IH]; intro H; [lia|].
  destruct m as [|m].
  - reflexivity.
  - rewrite full_decor_S, <- IH by lia.
    cbn [opened_decor]. unfold transition_decor at 2.
    cbn [Nat.ltb Nat.leb]. rewrite <- !app_assoc. reflexivity.
Qed.

Lemma close_out (st : pdf) :
  (1 <= page_no st)%nat ->
  out (close st) = (out st ++ [mkPlaced (page_no st) InFooter l_margin (page_h - 15)
                                 (page_w - l_margin - r_margin) 10
                                 footer_caption AlignC false None
                                 "Helvetica" "I" 8 (128, 128, 128)])%list.
Proof.
  intro H. unfold close.
  destruct (page_no st =? 0)%nat eqn:E; [apply Nat.eqb_eq in E; lia|].
  reflexivity.
Qed.

Lemma close_page_no (st : pdf) :
  page_no (close st) = if (page_no st =? 0)%nat then 1%nat else page_no st.
Proof.
  unfold close. destruct (page_no st =? 0)%nat eqn:E; [|reflexivity].
  apply Nat.eqb_eq in E. cbn [page_no with_hook footer_with draw_cell set_y
    set_font set_text_color with_sty with_cursor].
  rewrite add_page_page_no, E. reflexivity.
Qed.

Lemma close_decor (st : pdf) :
  decor_inv st -> decor (out (close st)) = full_decor (page_no (close st)).
Proof.
  intros [Hb Hd]. rewrite close_page_no.
  destruct (page_no st =? 0)%nat eqn:E.
  - apply Nat.eqb_eq in E.
    assert (Hc : close st = close (add_page st)).
    { unfold close. rewrite add_page_page_no, E. reflexivity. }
    rewrite Hc, close_out by (rewrite add_page_page_no; lia).
    rewrite add_page_out, add_page_page_no, !decor_app, Hd, E. reflexivity.
  - apply Nat.eqb_neq in E.
    rewrite close_out by lia. rewrite decor_app, Hd.
    apply (opened_full (page_no st)). lia.
Qed.

Lemma on_page_app (p : nat) (a b : list placed) :
  on_page p (a ++ b) = (on_page p a ++ on_page p b)%list.
Proof. apply filter_app. Qed.

Lemma on_page_header (p q : nat) :
  on_page p (header_cells q) = if (q =? p)%nat then header_cells q else [].
Proof.
  unfold header_cells. destruct (1 <? q)%nat.
  - cbn. destruct (q =? p)%nat; reflexivity.
  - destruct (q =? p)%nat; reflexivity.
Qed.

Lemma on_page_footer (p q : nat) :
  on_page p [footer_cell q] = if (q =? p)%nat then [footer_cell q] else [].
Proof. cbn. destruct (q =? p)%nat; reflexivity. Qed.

(** Page [p] of a closed document carries its header cells and its
    footer cell, and no other decoration. *)
Lemma on_page_full_decor (n p : nat) :
  on_page p (full_decor n)
  = if ((1 <=? p) && (p <=? n))%nat
    then (header_cells p ++ [footer_cell p])%list else [].
Proof.
  induction n as [|n IH].
  - destruct p as [|p]; reflexivity.
  - rewrite full_decor_S, !on_page_app, IH, on_page_header, on_page_footer.
    destruct (S n =? p)%nat eqn:E.
    + apply Nat.eqb_eq in E. subst p.
      replace (S n <=? n)%nat with false by (symmetry; apply Nat.leb_gt; lia).
      rewrite andb_false_r, Nat.leb_refl. reflexivity.
    + apply Nat.eqb_neq in E. rewrite !app_nil_r.
      destruct (1 <=? p)%nat; cbn [andb]; [|reflexivity].
      destruct (p <=? n)%nat eqn:L1; destruct (p <=? S n)%nat eqn:L2;
        try reflexivity.
      * apply Nat.leb_le in L1. apply Nat.leb_gt in L2. lia.
      * apply Nat.leb_gt in L1. apply Nat.leb_le in L2. lia.
Qed.

(** ** The hooks where [add_page] runs them *)

Lemma header_page_1 (c : cell_fn) (st : pdf) :
  (page_no st <= 1)%nat -> header_with c st = st.
Proof.
  intro H. unfold header_with.
  destruct (1 <? page_no st)%nat eqn:E; [apply Nat.ltb_lt in E; lia | reflexivity].
Qed.

Lemma header_resets_x (c : cell_fn) (st : pdf) :
  (1 < page_no st)%nat -> get_x (header_with c st) = l_margin.
Proof.
  intro H. unfold header_with.
  destruct (1 <? page_no st)%nat eqn:E; [reflexivity | apply Nat.ltb_ge in E; lia].
Qed.

(** At the top of a fresh page the header's cells fit, so the break
    check of [cell] never fires inside the hook. *)
Lemma header_on_fresh_page (st : pdf) :
  get_y st = t_margin -> header st = header_with draw_cell st.
Proof.
  intro H. unfold header, header_with.
  destruct (1 <? page_no st)%nat; [|reflexivity].
  cbv zeta.
  set (s0 := set_text_color 128 128 128 (set_font "Helvetica" "I" 9 st)).
  assert (E1 : cell 95 10 header_title false 0%nat AlignL false s0
               = draw_cell 95 10 header_title false 0%nat AlignL false s0).
  { apply cell_no_break. unfold will_page_break.
    change (get_y s0) with (get_y st). rewrite H. reflexivity. }
  rewrite E1. rewrite cell_no_break; [reflexivity|].
  unfold will_page_break.
  change (get_y (draw_cell 95 10 header_title false 0%nat AlignL false s0))
    with (get_y st).
  rewrite H. reflexivity.
Qed.

(** While the footer is drawn the break check is off. *)
Lemma footer_in_footer (st : pdf) :
  in_hook st = InFooter -> footer st = footer_with draw_cell st.
Proof.
  intro H. unfold footer, footer_with, cell, will_page_break, in_footer.
  cbn [set_y set_font set_text_color with_sty with_cursor in_hook].
  rewrite H. rewrite andb_false_r. reflexivity.
Qed.

Lemma header_out (st : pdf) :
  get_x st = l_margin -> get_y st = t_margin -> in_hook st = InHeader ->
  out (header st) = (out st ++ header_cells (page_no st))%list.
Proof.
  intros Hx Hy Hh. rewrite header_on_fresh_page by exact Hy.
  unfold header_with, header_cells.
  destruct (1 <? page_no st)%nat; [|rewrite app_nil_r; reflexivity].
  cbn. rewrite Hx, Hy, Hh, <- app_assoc. reflexivity.
Qed.

Lemma footer_out (st : pdf) :
  in_hook st = InFooter ->
  out (footer st) = (out st ++ [footer_cell (page_no st)])%list.
Proof.
  intros Hh. rewrite footer_in_footer by exact Hh.
  cbn. rewrite Hh. reflexivity.
Qed.

Lemma headers_of_decor (p : nat) (l : list placed) :
  filter is_header (on_page p l) = filter is_header (on_page p (decor l)).
Proof.
  unfold on_page, decor.
  induction l as [|o l IH]; [reflexivity|].
  destruct o as [pg bd ox oy ow oh tx oa ob ofl ff fs fz fc].
  destruct bd; cbn; destruct (pg =? p)%nat; cbn; rewrite ?IH; reflexivity.
Qed.

Lemma footers_of_decor (p : nat) (l : list placed) :
  filter is_footer (on_page p l) = filter is_footer (on_page p (decor l)).
Proof.
  unfold on_page, decor.
  induction l as [|o l IH]; [reflexivity|].
  destruct o as [pg bd ox oy ow oh tx oa ob ofl ff fs fz fc].
  destruct bd; cbn; destruct (pg =? p)%nat; cbn; rewrite ?IH; reflexivity.
Qed.

Lemma headers_of_page_decor (p : nat) :
  filter is_header (header_cells p ++ [footer_cell p]) = header_cells p.
Proof. unfold header_cells. destruct (1 <? p)%nat; reflexivity. Qed.

Lemma footers_of_page_decor (p : nat) :
  filter is_footer (header_cells p ++ [footer_cell p]) = [footer_cell p].
Proof. unfold header_cells. destruct (1 <? p)%nat; reflexivity. Qed.

Lemma generate_inv wrap cs doc :
  generate wrap cs = Some doc ->
  (1 <= page_no doc)%nat /\ decor (out doc) = full_decor (page_no doc).
Proof.
  unfold generate. intro G.
  assert (I : decor_inv (state_of (run wrap cs new_pdf))).
  { apply decor_inv_run. split; reflexivity. }
  destruct (run wrap cs new_pdf) as [st|st]; [|discriminate].
  injection G as <-. cbn [state_of] in I. split.
  - rewrite close_page_no. destruct (page_no st =? 0)%nat eqn:E; [lia|].
    apply Nat.eqb_neq in E. lia.
  - apply close_decor, I.
Qed.

(** ** C2: running header and footer *)

(** C2.  In every generated document the header hook draws nothing on
    page 1, draws the document title (left-aligned) and "Page N"
    (right-aligned) on every page N > 1 and then puts the abscissa
    back on the left margin, and the footer hook draws the same
    centred caption on every page, page 1 included: the decorations
    of the closed document are, page by page, exactly these cells. *)
Theorem C2_running_decorations
        (wrap : string -> string -> Z -> Z -> string -> list string)
        (cs : list (call)) (doc : pdf) :
  generate wrap cs = Some doc ->
  (forall st, page_no st = 1%nat -> header st = st)
  /\ (forall st N,
        page_no st = N -> (1 < N)%nat ->
        get_x st = l_margin -> get_y st = t_margin -> in_hook st = InHeader ->
        out (header st)
        = (out st ++
           [ mkPlaced N InHeader l_margin t_margin 95 10
               "Basic-10 Compiler Documentation" AlignL false None
               "Helvetica" "I" 9 (128, 128, 128);
             mkPlaced N InHeader (l_margin + 95) t_margin 95 10
               ("Page " ++ PyStr.str_of_nat N) AlignR false None
               "Helvetica" "I" 9 (128, 128, 128) ])%list
        /\ get_x (header st) = l_margin)
  /\ (forall st,
        in_hook st = InFooter ->
        out (footer st)
        = (out st ++
           [ mkPlaced (page_no st) InFooter l_margin (page_h - 15)
               (page_w - l_margin - r_margin) 10
               "Basic-10 v1.9.1 - BASIC to IC10 Compiler for Stationeers"
               AlignC false None "Helvetica" "I" 8 (128, 128, 128) ])%list)
  /\ (1 <= page_no doc)%nat
  /\ decor (out doc) = full_decor (page_no doc)
  /\ filter is_header (on_page 1 (out doc)) = []
  /\ (forall p,
        (1 <= p <= page_no doc)%nat ->
        filter is_header (on_page p (out doc)) = header_cells p
        /\ filter is_footer (on_page p (out doc)) = [footer_cell p]).
Proof.
  intro G. destruct (generate_inv wrap cs doc G) as [Hn Hd].
  assert (Hp : forall p, (1 <= p <= page_no doc)%nat ->
                filter is_header (on_page p (out doc)) = header_cells p
                /\ filter is_footer (on_page p (out doc)) = [footer_cell p]).
  { intros p [H1 H2].
    rewrite headers_of_decor, footers_of_decor, Hd, on_page_full_decor.
    replace (1 <=? p)%nat with true by (symmetry; apply Nat.leb_le; lia).
    replace (p <=? page_no doc)%nat with true by (symmetry; apply Nat.leb_le; lia).
    cbn [andb]. split.
    - apply headers_of_page_decor.
    - apply footers_of_page_decor. }
  repeat split.
  - intros st H1. apply header_page_1. lia.
  - subst N. rewrite header_out by assumption.
    unfold header_cells.
    replace (1 <? page_no st)%nat with true by (symmetry; apply Nat.ltb_lt; lia).
    reflexivity.
  - apply header_resets_x. lia.
  - intros st Hf. apply footer_out, Hf.
  - exact Hn.
  - exact Hd.
  - destruct (Hp 1%nat) as [Hh _]; [lia|]. exact Hh.
  - apply Hp; assumption.
  - apply Hp; assumption.
Qed.

(** ** C1: the style across a page break *)

Lemma code_cells_style (lines : list string) (st : pdf) :
  Forall (fun o =>
            p_sty o = (font_family (sty st), font_style (sty st),
                       font_size_pt (sty st), text_color (sty st))
            /\ p_fill o = Some (fill_color (sty st)))
         (code_cells lines st).
Proof.
  pose proof (code_cells_shape lines st) as E.
  assert (F : Forall (fun sh => snd sh = (font_family (sty st), font_style (sty st),
                                          font_size_pt (sty st), text_color (sty st))
                                /\ snd (fst sh) = Some (fill_color (sty st)))
                     (map shape (code_cells lines st))).
  { rewrite E. apply Forall_map, Forall_forall. intros l _. split; reflexivity. }
  apply Forall_map in F. exact F.
Qed.

(** C1.  A page break never resets the StyleContext: [add_page]
    leaves font family, style flags, size, text colour and fill colour
    as they were, although the header hook it runs sets its own font
    and colour; a cell that breaks the page is drawn on the next page
    in the style that was current before the break; and every line of
    a code block, on whichever page it lands, is drawn in the
    code-block style. *)
Theorem C1_style_survives_page_break (st : pdf) :
  in_hook st = Body ->
  sty (add_page st) = sty st
  /\ ((1 <= page_no st)%nat ->
      sty (header (begin_page st))
      = mkStyle "Helvetica" "I" 9 (128, 128, 128) (fill_color (sty st)))
  /\ (forall w h txt border lnmode al fill,
        will_page_break h st = true ->
        let st' := cell w h txt border lnmode al fill st in
        let o := cell_at w h txt border al fill st in
        page_no st' = S (page_no st)
        /\ sty st' = sty st
        /\ out st' = (out st ++ transition_decor (page_no st) ++ [o])%list
        /\ p_page o = S (page_no st)
        /\ p_sty o = (font_family (sty st), font_style (sty st),
                      font_size_pt (sty st), text_color (sty st))
        /\ p_fill o = if fill then Some (fill_color (sty st)) else None)
  /\ (forall code,
        exists new,
          content (out (code_block code st)) = (content (out st) ++ new)%list
          /\ Forall (fun o => p_sty o = ("Courier", "", 9, (0, 0, 0))
                              /\ p_fill o = Some (240, 240, 240)) new
          /\ sty (code_block code st)
             = mkStyle "Courier" "" 9 (0, 0, 0) (240, 240, 240)).
Proof.
  intro Hb. split; [reflexivity|]. split; [|split].
  - intro Hp. rewrite header_on_fresh_page by reflexivity.
    unfold header_with. cbn [begin_page page_no].
    replace (1 <? S (page_no st))%nat with true
      by (symmetry; apply Nat.ltb_lt; lia).
    reflexivity.
  - intros w h txt border lnmode al fill B st' o. subst st' o.
    rewrite cell_page_no, cell_sty, cell_out, B.
    unfold cell_at; rewrite B; cbn [p_page p_sty p_family p_style p_size p_color p_fill].
    repeat split; reflexivity.
  - intro code. eexists. split; [apply code_block_content, Hb|]. split.
    + apply (code_cells_style _
               (set_text_color 0 0 0
                  (set_fill_color 240 240 240 (set_font "Courier" "" 9 st)))).
    + unfold code_block. cbn [ln sty with_cursor]. rewrite code_lines_sty.
      reflexivity.
Qed.

(** ** C4: line atomicity of code blocks *)

Lemma cell_at_within w h txt border al fill (st : pdf) :
  in_hook st = Body -> t_margin <= get_y st ->
  t_margin + 10 + h <= page_break_trigger ->
  t_margin <= p_y (cell_at w h txt border al fill st)
  /\ p_y (cell_at w h txt border al fill st) + h <= page_break_trigger.
Proof.
  intros Hb Hy Hh. split; [|apply cell_at_fits; assumption].
  unfold cell_at; cbn [p_y].
  destruct (will_page_break h st); [|exact Hy].
  rewrite add_page_y. destruct (0 <? page_no st)%nat; lia.
Qed.

Lemma code_line_y (st : pdf) (l : string) :
  get_y (code_line st l)
  = p_y (cell_at 0 5 ("  " ++ l) false AlignL true (set_x 10 st)) + 5.
Proof. unfold code_line. rewrite cell_y. reflexivity. Qed.

(** Every code line lies wholly between the top and bottom margins of
    the page it is drawn on. *)
Lemma code_cells_within (lines : list string) (st : pdf) :
  in_hook st = Body -> t_margin <= get_y st ->
  Forall (fun o => t_margin <= p_y o /\ p_y o + p_h o <= page_break_trigger)
         (code_cells lines st).
Proof.
  revert st. induction lines as [|l ls IH]; intros st H Hy; cbn [code_cells].
  - constructor.
  - assert (W : t_margin
                <= p_y (cell_at 0 5 ("  " ++ l) false AlignL true (set_x 10 st))
                /\ p_y (cell_at 0 5 ("  " ++ l) false AlignL true (set_x 10 st)) + 5
                   <= page_break_trigger).
    { apply cell_at_within; [exact H | exact Hy |].
      unfold t_margin, page_break_trigger, page_h, b_margin. lia. }
    constructor; [exact W|].
    apply IH; [apply code_line_hook, H|].
    rewrite code_line_y. lia.
Qed.

Lemma code_cells_length (lines : list string) (st : pdf) :
  List.length (code_cells lines st) = List.length lines.
Proof.
  revert st. induction lines as [|l ls IH]; intros st; cbn [code_cells List.length].
  - reflexivity.
  - rewrite IH. reflexivity.
Qed.

(** C4.  A code block of three lines (5 units each) started with
    exactly 12 units left above the bottom margin puts lines 1 and 2
    on the current page (10 units), breaks the page on line 3 and
    draws line 3 whole as the first content of the next page, right
    under the header; and in general every code line is one cell that
    lies wholly between the margins of a single page. *)
Theorem C4_code_block_across_break (st : pdf) (code l1 l2 l3 : string) :
  in_hook st = Body ->
  (1 <= page_no st)%nat ->
  get_y st = page_break_trigger - 12 ->
  PyStr.split PyStr.nl (PyStr.strip code) = [l1; l2; l3] ->
  let p := page_no st in
  let y0 := get_y st in
  out (code_block code st)
  = (out st
     ++ [code_cell p y0 l1; code_cell p (y0 + 5) l2]
     ++ [footer_cell p] ++ header_cells (S p)
     ++ [code_cell (S p) (t_margin + 10) l3])%list
  /\ content (out (code_block code st))
     = (content (out st)
        ++ [code_cell p y0 l1; code_cell p (y0 + 5) l2;
            code_cell (S p) (t_margin + 10) l3])%list
  /\ page_no (code_block code st) = S p
  /\ (forall (code' : string) (st0 : pdf),
        in_hook st0 = Body -> t_margin <= get_y st0 ->
        exists new,
          content (out (code_block code' st0)) = (content (out st0) ++ new)%list
          /\ List.length new
             = List.length (PyStr.split PyStr.nl (PyStr.strip code'))
          /\ Forall (fun o => t_margin <= p_y o
                              /\ p_y o + p_h o <= page_h - b_margin) new).
Proof.
  intros Hb Hp Hy Hs p y0. subst p y0.
  assert (E : out (code_block code st)
              = (out st
                 ++ [code_cell (page_no st) (get_y st) l1;
                     code_cell (page_no st) (get_y st + 5) l2]
                 ++ [footer_cell (page_no st)] ++ header_cells (S (page_no st))
                 ++ [code_cell (S (page_no st)) (t_margin + 10) l3])%list
              /\ page_no (code_block code st) = S (page_no st)).
  { unfold code_block. rewrite Hs.
    destruct st as [p cx cy lh hk s o]. cbn in Hb, Hp, Hy. subst hk cy.
    destruct p as [|p]; [lia|].
    cbn [page_no get_y out]. split.
    - cbn. rewrite <- !app_assoc. reflexivity.
    - reflexivity. }
  destruct E as [E1 E2]. split; [exact E1|]. split; [|split; [exact E2|]].
  - rewrite E1, !content_app.
    replace (content (header_cells (S (page_no st)))) with (@nil placed)
      by (destruct (page_no st) as [|[|n]]; reflexivity).
    reflexivity.
  - intros code' st0 H0 Hy0. eexists. split; [apply code_block_content, H0|].
    split; [apply code_cells_length|].
    apply code_cells_within; assumption.
Qed.

(** ** What [strip] and [split] do to a framed text *)

Module StripFacts.
Import PyStr PyStrFacts.

Lemma split_one (sep : ascii) (l : string) :
  has_char sep l = false -> split sep l = [l].
Proof.
  induction l as [|c r IH]; cbn; [reflexivity|].
  destruct (Ascii.eqb c sep); cbn; [discriminate|].
  intro H. rewrite (IH H). reflexivity.
Qed.

Lemma split_cons (sep : ascii) (l r : string) :
  has_char sep l = false ->
  split sep (l ++ String sep r) = l :: split sep r.
Proof.
  induction l as [|c t IH]; cbn [append split has_char].
  - intros _. rewrite Ascii.eqb_refl. reflexivity.
  - destruct (Ascii.eqb c sep); cbn [orb]; [discriminate|].
    intro H. rewrite (IH H). reflexivity.
Qed.

(** [split] undoes [join] on separator-free lines. *)
Lemma split_join (sep : ascii) (ls : list string) :
  ls <> [] -> Forall (fun l => has_char sep l = false) ls ->
  split sep (join sep ls) = ls.
Proof.
  induction ls as [|l ls IH]; intros N F; [contradiction|].
  inversion F as [|? ? Hl Hls]; subst.
  destruct ls as [|l' ls'].
  - cbn [join]. apply split_one, Hl.
  - change (join sep (l :: l' :: ls'))
      with (l ++ String sep (join sep (l' :: ls'))).
    rewrite split_cons by exact Hl.
    rewrite IH; [reflexivity | discriminate | exact Hls].
Qed.

Lemma lstrip_spaces (pre u : string) :
  all_space pre = true -> lstrip (pre ++ u) = lstrip u.
Proof.
  induction pre as [|c r IH]; cbn; [reflexivity|].
  destruct (isspace c); cbn; [exact IH | discriminate].
Qed.

Lemma lstrip_id (u : string) (c : ascii) :
  first_char u = Some c -> isspace c = false -> lstrip u = u.
Proof.
  destruct u as [|d r]; cbn; [discriminate|].
  intros [= ->] ->. reflexivity.
Qed.

Lemma rstrip_spaces (post : string) :
  all_space post = true -> rstrip post = EmptyString.
Proof.
  induction post as [|c r IH]; cbn; [reflexivity|].
  destruct (isspace c); cbn; [|discriminate].
  intro H. rewrite (IH H). reflexivity.
Qed.

Lemma rstrip_exact (t post : string) (c : ascii) :
  last_char t = Some c -> isspace c = false -> all_space post = true ->
  rstrip (t ++ post) = t.
Proof.
  intros L W A. induction t as [|d r IH]; [discriminate|].
  cbn [append rstrip]. destruct r as [|e r'].
  - cbn in L. injection L as ->.
    cbn [append]. rewrite (rstrip_spaces post A), W. reflexivity.
  - assert (L' : last_char (String e r') = Some c).
    { change (last_char (String d (String e r')))
        with (match last_char (String e r') with
              | None => Some d
              | Some x => Some x
              end) in L.
      destruct (last_char (String e r')) eqn:Q; [exact L|].
      cbn in Q. destruct (last_char r'); discriminate. }
    rewrite (IH L'). reflexivity.
Qed.

(** [strip] of a text framed by white space is the text itself, as
    soon as the text starts and ends with a character that is not
    white space. *)
Lemma strip_exact (pre t post : string) (a z : ascii) :
  all_space pre = true -> all_space post = true ->
  first_char t = Some a -> isspace a = false ->
  last_char t = Some z -> isspace z = false ->
  strip (pre ++ t ++ post) = t.
Proof.
  intros Apre Apost Fa Wa Lz Wz. unfold strip.
  rewrite lstrip_spaces by exact Apre.
  rewrite (lstrip_id (t ++ post) a).
  - apply (rstrip_exact t post z); assumption.
  - destruct t; [discriminate | exact Fa].
  - exact Wa.
Qed.

End StripFacts.

(** ** C5 and C9: the lines of a code block *)

Lemma code_cells_txt (lines : list string) (st : pdf) :
  map p_txt (code_cells lines st) = map (fun l => "  " ++ l) lines.
Proof.
  revert st. induction lines as [|l ls IH]; intros st; cbn [code_cells map].
  - reflexivity.
  - rewrite IH. reflexivity.
Qed.

(** C5.  The code-block renderer cuts its (stripped) input at the
    newline characters and nowhere else, and draws one cell per line,
    never wrapping: each cell starts at the left margin, spans the
    full content width, is drawn in Courier with the grey background
    fill, and shows the line behind exactly two spaces. *)
Theorem C5_code_block_lines (code : string) (st : pdf) :
  in_hook st = Body ->
  let lines := PyStr.split PyStr.nl (PyStr.strip code) in
  (exists new,
      content (out (code_block code st)) = (content (out st) ++ new)%list
      /\ map shape new
         = map (fun l => (l_margin, page_w - l_margin - r_margin, 5,
                          "  " ++ l, AlignL, false, Some (240, 240, 240),
                          ("Courier", "", 9, (0, 0, 0))))
               lines)
  /\ Forall (fun l => PyStr.has_char PyStr.nl l = false) lines
  /\ PyStr.join PyStr.nl lines = PyStr.strip code
  /\ List.length lines = S (PyStr.count_char PyStr.nl (PyStr.strip code)).
Proof.
  intros Hb lines. subst lines. split; [|split; [|split]].
  - eexists. split; [apply code_block_content, Hb|].
    rewrite code_cells_shape. reflexivity.
  - apply PyStrFacts.split_no_sep.
  - apply PyStrFacts.join_split.
  - apply PyStrFacts.split_length.
Qed.

(** C9.  The code-block renderer strips the white space (blank lines
    included) at both ends of its input before splitting: the input is
    a white-space prefix, the stripped text and a white-space suffix;
    the stripped text neither starts nor ends with white space; the
    lines drawn are the lines of the stripped text, so that a text
    framed by white space renders exactly its own lines, the blank
    ones in the middle included. *)
Theorem C9_code_block_strips (code : string) (st : pdf) :
  in_hook st = Body ->
  (exists new,
      content (out (code_block code st)) = (content (out st) ++ new)%list
      /\ map p_txt new
         = map (fun l => "  " ++ l)
               (PyStr.split PyStr.nl (PyStr.strip code)))
  /\ (exists pre post,
         code = pre ++ PyStr.strip code ++ post
         /\ PyStr.all_space pre = true /\ PyStr.all_space post = true)
  /\ (forall c, PyStr.first_char (PyStr.strip code) = Some c ->
                PyStr.isspace c = false)
  /\ (forall c, PyStr.last_char (PyStr.strip code) = Some c ->
                PyStr.isspace c = false)
  /\ PyStr.join PyStr.nl (PyStr.split PyStr.nl (PyStr.strip code))
     = PyStr.strip code
  /\ (forall pre post ls a z,
         code = pre ++ PyStr.join PyStr.nl ls ++ post ->
         PyStr.all_space pre = true -> PyStr.all_space post = true ->
         ls <> [] ->
         Forall (fun l => PyStr.has_char PyStr.nl l = false) ls ->
         PyStr.first_char (PyStr.join PyStr.nl ls) = Some a ->
         PyStr.isspace a = false ->
         PyStr.last_char (PyStr.join PyStr.nl ls) = Some z ->
         PyStr.isspace z = false ->
         PyStr.split PyStr.nl (PyStr.strip code) = ls).
Proof.
  intros Hb. repeat apply conj.
  - eexists. split; [apply code_block_content, Hb|].
    apply code_cells_txt.
  - apply PyStrFacts.strip_decomp.
  - apply PyStrFacts.strip_first.
  - apply PyStrFacts.strip_last.
  - apply PyStrFacts.join_split.
  - intros pre post ls a z -> Apre Apost N F Fa Wa Lz Wz.
    rewrite (StripFacts.strip_exact pre _ post a z) by assumption.
    apply StripFacts.split_join; assumption.
Qed.

(** ** C8: the three heading renderers *)

Lemma rev_out_cell w h txt border lnmode al fill (st : pdf) :
  exists tl,
    rev (out (cell w h txt border lnmode al fill st))
    = cell_at w h txt border al fill st :: tl.
Proof.
  rewrite cell_out, app_assoc, rev_app_distr. cbn [rev app].
  eexists. reflexivity.
Qed.

Lemma heading_facts (family flags : string) (size r g b h gap : Z)
      (title : string) (st : pdf) :
  let st' := ln (Some gap)
                (cell 0 h title false 1%nat AlignL false
                      (set_text_color r g b (set_font family flags size st))) in
  last_size st' = size
  /\ font_size_pt (sty st') = size
  /\ get_y st' - last_bottom st' = gap.
Proof.
  cbv zeta. unfold last_size, last_bottom.
  cbn [ln out with_cursor sty get_y].
  destruct (rev_out_cell 0 h title false 1%nat AlignL false
              (set_text_color r g b (set_font family flags size st))) as [tl E].
  rewrite E, cell_sty, cell_y. cbn. repeat split; lia.
Qed.

(** C8.  The heading renderers are strictly ordered: the chapter title
    is drawn in a larger font (18 pt) and followed by a larger gap (4)
    than the section title (14 pt, gap 2), which in turn is larger on
    both counts than the subsection title (11 pt, gap 1). *)
Theorem C8_heading_order (t1 t2 t3 : string) (st1 st2 st3 : pdf) :
  let c := chapter_title t1 st1 in
  let s := section_title t2 st2 in
  let u := subsection_title t3 st3 in
  (last_size c = 18 /\ last_size s = 14 /\ last_size u = 11)
  /\ (get_y c - last_bottom c = 4 /\ get_y s - last_bottom s = 2
      /\ get_y u - last_bottom u = 1)
  /\ last_size c > last_size s /\ last_size s > last_size u
  /\ font_size_pt (sty c) > font_size_pt (sty s)
  /\ font_size_pt (sty s) > font_size_pt (sty u)
  /\ get_y c - last_bottom c > get_y s - last_bottom s
  /\ get_y s - last_bottom s > get_y u - last_bottom u.
Proof.
  intros c s u.
  destruct (heading_facts "Helvetica" "B" 18 0 100 180 12 4 t1 st1) as (C1 & C2 & C3).
  destruct (heading_facts "Helvetica" "B" 14 50 50 50 10 2 t2 st2) as (S1 & S2 & S3).
  destruct (heading_facts "Helvetica" "B" 11 80 80 80 8 1 t3 st3) as (U1 & U2 & U3).
  change (last_size c = 18) in C1. change (font_size_pt (sty c) = 18) in C2.
  change (get_y c - last_bottom c = 4) in C3.
  change (last_size s = 14) in S1. change (font_size_pt (sty s) = 14) in S2.
  change (get_y s - last_bottom s = 2) in S3.
  change (last_size u = 11) in U1. change (font_size_pt (sty u) = 11) in U2.
  change (get_y u - last_bottom u = 1) in U3.
  rewrite C1, C2, C3, S1, S2, S3, U1, U2, U3. repeat split; lia.
Qed.

(** ** Table rows *)

Lemma table_cells_hook h al i cols widths st :
  in_hook st = Body -> in_hook (state_of (table_cells h al i cols widths st)) = Body.
Proof.
  revert i st. induction cols as [|c cs IH]; intros i st H; cbn [table_cells].
  - exact H.
  - destruct (nth_error widths i); [apply IH, cell_hook, H | exact H].
Qed.

Lemma table_cells_sty h al i cols widths st :
  sty (state_of (table_cells h al i cols widths st)) = sty st.
Proof.
  revert i st. induction cols as [|c cs IH]; intros i st; cbn [table_cells].
  - reflexivity.
  - destruct (nth_error widths i); [rewrite IH; apply cell_sty | reflexivity].
Qed.

Lemma table_cells_content h al i cols widths st :
  in_hook st = Body ->
  content (out (state_of (table_cells h al i cols widths st)))
  = (content (out st) ++ row_cells h al i cols widths st)%list.
Proof.
  revert i st. induction cols as [|c cs IH]; intros i st H;
    cbn [table_cells row_cells].
  - rewrite app_nil_r. reflexivity.
  - destruct (nth_error widths i) as [w|].
    + rewrite IH by (apply cell_hook, H).
      rewrite cell_content by exact H. rewrite <- app_assoc. reflexivity.
    + rewrite app_nil_r. reflexivity.
Qed.

Lemma row_cells_txt_fill h al i cols widths st :
  map txt_fill (row_cells h al i cols widths st)
  = map (fun c => (c, Some (fill_color (sty st))))
        (firstn (List.length widths - i) cols).
Proof.
  revert i st. induction cols as [|c cs IH]; intros i st; cbn [row_cells].
  - rewrite firstn_nil. reflexivity.
  - destruct (nth_error widths i) as [w|] eqn:E.
    + assert (L : (i < List.length widths)%nat)
        by (apply nth_error_Some; congruence).
      replace (List.length widths - i)%nat
        with (S (List.length widths - S i))%nat by lia.
      cbn [firstn map]. rewrite IH, cell_sty. reflexivity.
    + apply nth_error_None in E.
      replace (List.length widths - i)%nat with 0%nat by lia. reflexivity.
Qed.

(** With a width for every column the loop ends normally. *)
Lemma table_cells_done h al i cols widths st :
  (i + List.length cols <= List.length widths)%nat ->
  exists st', table_cells h al i cols widths st = Done st'.
Proof.
  revert i st. induction cols as [|c cs IH]; intros i st L; cbn [table_cells].
  - eexists; reflexivity.
  - cbn [List.length] in L.
    destruct (nth_error widths i) as [w|] eqn:E.
    + apply IH. lia.
    + apply nth_error_None in E. lia.
Qed.

(** With too few widths the loop raises at the first column without a
    width, after having drawn the columns before it. *)
Lemma table_cells_raise h al i cols widths st :
  (i <= List.length widths)%nat ->
  (List.length widths < i + List.length cols)%nat ->
  exists st',
    table_cells h al i (firstn (List.length widths - i) cols) widths st = Done st'
    /\ table_cells h al i cols widths st = IndexError st'.
Proof.
  revert i st. induction cols as [|c cs IH]; intros i st L1 L2.
  - cbn [List.length] in L2. lia.
  - cbn [table_cells]. destruct (nth_error widths i) as [w|] eqn:E.
    + assert (L : (i < List.length widths)%nat)
        by (apply nth_error_Some; congruence).
      replace (List.length widths - i)%nat
        with (S (List.length widths - S i))%nat by lia.
      cbn [firstn table_cells]. rewrite E.
      apply IH; cbn [List.length] in L2; lia.
    + apply nth_error_None in E.
      replace (List.length widths - i)%nat with 0%nat by lia.
      exists st. split; reflexivity.
Qed.

Lemma nth_error_firstn_lt (A : Type) (n i : nat) (l : list A) :
  (i < n)%nat -> nth_error (firstn n l) i = nth_error l i.
Proof.
  revert i l. induction n as [|n IH]; intros i l H; [lia|].
  destruct l as [|a l]; [reflexivity|].
  destruct i as [|i]; [reflexivity|].
  cbn. apply IH. lia.
Qed.

(** Widths beyond the last column are never read. *)
Lemma table_cells_surplus h al i cols widths st (n : nat) :
  (i + List.length cols <= n)%nat ->
  table_cells h al i cols (firstn n widths) st
  = table_cells h al i cols widths st.
Proof.
  revert i st. induction cols as [|c cs IH]; intros i st L; cbn [table_cells].
  - reflexivity.
  - cbn [List.length] in L. rewrite nth_error_firstn_lt by lia.
    destruct (nth_error widths i); [apply IH; lia | reflexivity].
Qed.

Lemma table_row_unfold cols widths fill st :
  table_row cols widths fill st
  = bind (table_cells 6 AlignL 0 cols widths (row_prelude fill st))
         (fun st => Done (ln None st)).
Proof. reflexivity. Qed.

Lemma table_header_unfold cols widths st :
  table_header cols widths st
  = bind (table_cells 7 AlignC 0 cols widths (header_prelude st))
         (fun st => Done (ln None st)).
Proof. reflexivity. Qed.

Lemma row_prelude_fill fill st : fill_color (sty (row_prelude fill st)) = stripe fill.
Proof. destruct fill; reflexivity. Qed.

Lemma row_prelude_hook fill st : in_hook (row_prelude fill st) = in_hook st.
Proof. destruct fill; reflexivity. Qed.

Lemma row_prelude_out fill st : out (row_prelude fill st) = out st.
Proof. destruct fill; reflexivity. Qed.

Lemma table_row_spec cols widths fill st :
  in_hook st = Body ->
  (List.length cols <= List.length widths)%nat ->
  exists st' new,
    table_row cols widths fill st = Done st'
    /\ in_hook st' = Body
    /\ content (out st') = (content (out st) ++ new)%list
    /\ map txt_fill new = map (fun c => (c, Some (stripe fill))) cols.
Proof.
  intros Hb L.
  destruct (table_cells_done 6 AlignL 0 cols widths (row_prelude fill st))
    as [st1 E]; [cbn; lia|].
  assert (Hp : in_hook (row_prelude fill st) = Body)
    by (rewrite row_prelude_hook; exact Hb).
  pose proof (table_cells_hook 6 AlignL 0 cols widths _ Hp) as H1.
  pose proof (table_cells_content 6 AlignL 0 cols widths _ Hp) as H2.
  rewrite E in H1, H2. cbn [state_of] in H1, H2.
  exists (ln None st1), (row_cells 6 AlignL 0 cols widths (row_prelude fill st)).
  rewrite table_row_unfold, E. cbn [bind]. repeat split.
  - exact H1.
  - cbn [ln out with_cursor]. rewrite H2, row_prelude_out. reflexivity.
  - rewrite row_cells_txt_fill, row_prelude_fill, Nat.sub_0_r.
    rewrite firstn_all2 by exact L. reflexivity.
Qed.

Lemma even_mod2 (i : nat) : (i mod 2 =? 0)%nat = Nat.even i.
Proof.
  destruct (Nat.even i) eqn:E.
  - apply Nat.even_spec in E. destruct E as [k ->].
    apply Nat.eqb_eq. rewrite Nat.mul_comm. apply Nat.Div0.mod_mul.
  - apply Nat.eqb_neq. intro M.
    assert (Ev : Nat.even i = true).
    { apply Nat.even_spec. exists (i / 2)%nat.
      pose proof (Nat.div_mod_eq i 2). lia. }
    congruence.
Qed.

Lemma table_rows_spec rows widths i st :
  in_hook st = Body ->
  Forall (fun row => (List.length row <= List.length widths)%nat) rows ->
  exists st' new,
    table_rows i rows widths st = Done st'
    /\ in_hook st' = Body
    /\ content (out st') = (content (out st) ++ new)%list
    /\ map txt_fill new = striped i rows.
Proof.
  revert i st. induction rows as [|row rest IH]; intros i st Hb F.
  - exists st, []. cbn. rewrite app_nil_r. auto.
  - inversion F as [|? ? Hl Hr]; subst.
    destruct (table_row_spec row widths (i mod 2 =? 0)%nat st Hb Hl)
      as (st1 & new1 & E1 & B1 & C1 & T1).
    destruct (IH (S i) st1 B1 Hr) as (st2 & new2 & E2 & B2 & C2 & T2).
    exists st2, (new1 ++ new2)%list.
    cbn [table_rows striped]. rewrite E1. cbn [bind]. repeat split.
    + exact E2.
    + exact B2.
    + rewrite C2, C1, <- app_assoc. reflexivity.
    + rewrite map_app, T1, T2, even_mod2. reflexivity.
Qed.

Lemma striped_nth (rows : list (list string)) (k i : nat) (row : list string) :
  nth_error rows i = Some row ->
  exists before after,
    striped k rows
    = (before
       ++ map (fun c => (c, Some (stripe (Nat.even (k + i))))) row
       ++ after)%list.
Proof.
  revert k i. induction rows as [|r rs IH]; intros k i H.
  - destruct i; discriminate.
  - destruct i as [|i]; cbn [nth_error striped] in *.
    + injection H as ->. exists [], (striped (S k) rs).
      rewrite Nat.add_0_r. reflexivity.
    + destruct (IH (S k) i H) as (b & a & E).
      exists (map (fun c => (c, Some (stripe (Nat.even k)))) r ++ b)%list, a.
      rewrite E, <- app_assoc, Nat.add_succ_r. reflexivity.
Qed.

(** ** C3: striping *)

(** Odd rows are not left without a background: [table_row] always
    draws its cells with [fill=True], and for an odd row the
    background is white.  Two one-column rows from a fresh page: the
    second one, of index 1, is filled with (255,255,255). *)
Lemma C3_odd_row_is_filled :
  let st := state_of (table_rows 0 [["a"]; ["b"]] [50] (add_page new_pdf)) in
  map txt_fill (content (out st))
  = [("a", Some (248, 248, 248)); ("b", Some (255, 255, 255))]
  /\ ~ (forall o, In o (content (out st)) -> p_txt o = "b" -> p_fill o = None).
Proof.
  split; [reflexivity|].
  intro H.
  specialize (H (mkPlaced 1 Body 10 16 50 6 "b" AlignL true
                          (Some (255, 255, 255)) "Courier" "" 8 (0, 0, 0))).
  assert (N : Some (255, 255, 255) = @None rgb);
    [apply H; [cbn; auto | reflexivity] | discriminate N].
Qed.

(** C3 (amended).  In the table loop of [create_documentation] the
    cells of the data row with zero-based index i are drawn with the
    light background (248,248,248) when i is even and with a white
    background (255,255,255) when i is odd.  The colour depends on i
    alone: the equation holds from every state, wherever page breaks
    fall inside the table. *)
Theorem C3_stripe_by_index (rows : list (list string)) (widths : list Z)
        (st : pdf) :
  in_hook st = Body ->
  Forall (fun row => (List.length row <= List.length widths)%nat) rows ->
  exists st' new,
    table_rows 0 rows widths st = Done st'
    /\ content (out st') = (content (out st) ++ new)%list
    /\ map txt_fill new = striped 0 rows
    /\ (forall i row,
          nth_error rows i = Some row ->
          exists before after,
            striped 0 rows
            = (before
               ++ map (fun c => (c, Some (if Nat.even i
                                          then (248, 248, 248)
                                          else (255, 255, 255)))) row
               ++ after)%list).
Proof.
  intros Hb F.
  destruct (table_rows_spec rows widths 0 st Hb F) as (st' & new & E & _ & C & T).
  exists st', new. repeat split; try assumption.
  intros i row H. destruct (striped_nth rows 0 i row H) as (b & a & Eq).
  exists b, a. exact Eq.
Qed.

(** ** C6: column count against widths *)

(** A mismatch between columns and widths is not always an error: one
    column against two widths is accepted by both table renderers. *)
Lemma C6_surplus_widths_accepted :
  List.length ["a"] <> List.length [50; 60]
  /\ is_done (table_row ["a"] [50; 60] true (add_page new_pdf)) = true
  /\ is_done (table_header ["a"] [50; 60] (add_page new_pdf)) = true.
Proof. split; [discriminate | split; reflexivity]. Qed.

(** C6 (amended).  The table renderers do not compare the column
    count with the number of widths.  With at least as many widths as
    columns a call completes and never reads the surplus widths.  With
    fewer widths than columns it raises [IndexError] at the first
    column that has no width, after the style has been set and the
    cells of the columns before it have been placed. *)
Theorem C6_table_width_mismatch (cols : list string) (widths : list Z)
        (fill : bool) (st : pdf) :
  ((List.length cols <= List.length widths)%nat ->
   (exists st', table_row cols widths fill st = Done st')
   /\ (exists st', table_header cols widths st = Done st')
   /\ table_row cols (firstn (List.length cols) widths) fill st
      = table_row cols widths fill st
   /\ table_header cols (firstn (List.length cols) widths) st
      = table_header cols widths st)
  /\ ((List.length widths < List.length cols)%nat ->
      in_hook st = Body ->
      (exists st' new,
          table_row cols widths fill st = IndexError st'
          /\ content (out st') = (content (out st) ++ new)%list
          /\ map p_txt new = firstn (List.length widths) cols
          /\ sty st' = mkStyle "Courier" "" 8 (0, 0, 0) (stripe fill))
      /\ (exists st' new,
             table_header cols widths st = IndexError st'
             /\ content (out st') = (content (out st) ++ new)%list
             /\ map p_txt new = firstn (List.length widths) cols
             /\ sty st' = mkStyle "Helvetica" "B" 9 (255, 255, 255) (0, 100, 180))).
Proof.
  split.
  - intro L. repeat split.
    + destruct (table_cells_done 6 AlignL 0 cols widths (row_prelude fill st))
        as [st1 E]; [cbn; lia|].
      exists (ln None st1). rewrite table_row_unfold, E. reflexivity.
    + destruct (table_cells_done 7 AlignC 0 cols widths (header_prelude st))
        as [st1 E]; [cbn; lia|].
      exists (ln None st1). rewrite table_header_unfold, E. reflexivity.
    + rewrite !table_row_unfold, table_cells_surplus by (cbn; lia). reflexivity.
    + rewrite !table_header_unfold, table_cells_surplus by (cbn; lia). reflexivity.
  - intros L Hb.
    assert (T : forall new : list placed,
               map p_txt new = map fst (map txt_fill new)).
    { intro new. rewrite map_map. reflexivity. }
    split.
    + destruct (table_cells_raise 6 AlignL 0 cols widths (row_prelude fill st))
        as (st1 & _ & E); [lia | cbn; lia |].
      assert (Hp : in_hook (row_prelude fill st) = Body)
        by (rewrite row_prelude_hook; exact Hb).
      pose proof (table_cells_content 6 AlignL 0 cols widths _ Hp) as C.
      pose proof (table_cells_sty 6 AlignL 0 cols widths (row_prelude fill st)) as S.
      rewrite E in C, S. cbn [state_of] in C, S.
      exists st1, (row_cells 6 AlignL 0 cols widths (row_prelude fill st)).
      rewrite table_row_unfold, E. repeat split.
      * rewrite C, row_prelude_out. reflexivity.
      * rewrite T, row_cells_txt_fill, Nat.sub_0_r, map_map. cbn [fst].
        apply map_id.
      * rewrite S. destruct fill; reflexivity.
    + destruct (table_cells_raise 7 AlignC 0 cols widths (header_prelude st))
        as (st1 & _ & E); [lia | cbn; lia |].
      pose proof (table_cells_content 7 AlignC 0 cols widths (header_prelude st) Hb) as C.
      pose proof (table_cells_sty 7 AlignC 0 cols widths (header_prelude st)) as S.
      rewrite E in C, S. cbn [state_of] in C, S.
      exists st1, (row_cells 7 AlignC 0 cols widths (header_prelude st)).
      rewrite table_header_unfold, E. repeat split.
      * exact C.
      * rewrite T, row_cells_txt_fill, Nat.sub_0_r, map_map. cbn [fst].
        apply map_id.
      * exact S.
Qed.

(** ** C10: renderers do not depend on the style they find *)

Lemma same_layout_refl (a : pdf) : same_layout a a.
Proof. repeat split. Qed.

Lemma same_layout_with_sty (s : style) (a b : pdf) :
  same_layout a b -> with_sty s a = with_sty s b.
Proof.
  destruct a, b. unfold same_layout, with_sty. cbn.
  intros (-> & -> & -> & -> & -> & ->). reflexivity.
Qed.

Lemma drop_fill_layout (a b : pdf) :
  drop_fill a = drop_fill b ->
  same_layout a b
  /\ font_family (sty a) = font_family (sty b)
  /\ font_style (sty a) = font_style (sty b)
  /\ font_size_pt (sty a) = font_size_pt (sty b)
  /\ text_color (sty a) = text_color (sty b).
Proof.
  destruct a as [p1 x1 y1 l1 h1 [f1 s1 z1 t1 c1] o1].
  destruct b as [p2 x2 y2 l2 h2 [f2 s2 z2 t2 c2] o2].
  unfold drop_fill, same_layout. cbn. intros [= -> -> -> -> -> -> -> -> -> ->].
  repeat split.
Qed.

Lemma drop_fill_add_page (st : pdf) :
  drop_fill (add_page st) = add_page (drop_fill st).
Proof.
  destruct st as [p cx cy lh hk s o]; destruct p as [|p]; reflexivity.
Qed.

Lemma drop_fill_cell w h txt border lnmode al (st : pdf) :
  drop_fill (cell w h txt border lnmode al false st)
  = cell w h txt border lnmode al false (drop_fill st).
Proof.
  unfold cell.
  change (will_page_break h (drop_fill st)) with (will_page_break h st).
  destruct (will_page_break h st); [|reflexivity].
  rewrite <- drop_fill_add_page. reflexivity.
Qed.

Lemma drop_fill_cells (f : pdf -> string -> pdf) (lines : list string) (st : pdf) :
  (forall s l, drop_fill (f s l) = f (drop_fill s) l) ->
  drop_fill (fold_left f lines st) = fold_left f lines (drop_fill st).
Proof.
  intro Hf. revert st. induction lines as [|l ls IH]; intro st; cbn [fold_left].
  - reflexivity.
  - rewrite IH, Hf. reflexivity.
Qed.

Lemma drop_fill_multi_cell wrap w h txt (st : pdf) :
  drop_fill (multi_cell wrap w h txt st)
  = multi_cell wrap w h txt (drop_fill st).
Proof.
  unfold multi_cell.
  change (get_x (drop_fill st)) with (get_x st).
  change (font_family (sty (drop_fill st))) with (font_family (sty st)).
  change (font_style (sty (drop_fill st))) with (font_style (sty st)).
  change (font_size_pt (sty (drop_fill st))) with (font_size_pt (sty st)).
  rewrite <- drop_fill_cells by (intros; apply drop_fill_cell).
  reflexivity.
Qed.

(** Cells drawn after the style is set, and before it is set again,
    all carry that style. *)
Section Styled.

Variable S : style.
Variable fl : bool.
Variable base : list placed.

Lemma styled_cursor nx ny st :
  styled_inv S fl base st -> styled_inv S fl base (with_cursor nx ny st).
Proof. intro H; exact H. Qed.

Lemma styled_cell w h txt border lnmode al st :
  styled_inv S fl base st ->
  styled_inv S fl base (cell w h txt border lnmode al fl st).
Proof.
  intros (Hb & Hs & new & Hc & Hf). split; [apply cell_hook, Hb|].
  split; [rewrite cell_sty; exact Hs|].
  exists (new ++ [cell_at w h txt border al fl st])%list. split.
  - rewrite cell_content by exact Hb. rewrite Hc, app_assoc. reflexivity.
  - apply Forall_app. split; [exact Hf|].
    constructor; [|constructor].
    unfold styled, cell_at, p_sty; cbn. rewrite Hs. split; reflexivity.
Qed.

Lemma styled_cells (f : pdf -> string -> pdf) (lines : list string) (st : pdf) :
  (forall s l, styled_inv S fl base s -> styled_inv S fl base (f s l)) ->
  styled_inv S fl base st -> styled_inv S fl base (fold_left f lines st).
Proof.
  intro Hf. revert st.
  induction lines as [|l ls IH]; intros st H; cbn [fold_left]; auto.
Qed.

Lemma styled_table_cells h al i cols widths st :
  fl = true ->
  styled_inv S fl base st ->
  styled_inv S fl base (state_of (table_cells h al i cols widths st)).
Proof.
  intro Hfl. revert i st.
  induction cols as [|c cs IH]; intros i st H; cbn [table_cells].
  - exact H.
  - destruct (nth_error widths i); [|exact H].
    apply IH. rewrite <- Hfl. apply styled_cell, H.
Qed.

End Styled.

Lemma styled_start (st : pdf) (fl : bool) :
  in_hook st = Body -> styled_inv (sty st) fl (content (out st)) st.
Proof.
  intro H. split; [exact H|]. split; [reflexivity|].
  exists []. split; [rewrite app_nil_r; reflexivity | constructor].
Qed.

Lemma styled_bind_ln S fl base (r : result) :
  styled_inv S fl base (state_of r) ->
  styled_inv S fl base (state_of (bind r (fun st => Done (ln None st)))).
Proof. destruct r; intro H; exact H. Qed.

(** Every renderer places its cells in its own style. *)
Lemma render_styled wrap (b : block) (st : pdf) :
  in_hook st = Body ->
  exists new,
    content (out (state_of (render wrap b st))) = (content (out st) ++ new)%list
    /\ Forall (fun o => p_sty o = block_style b /\ p_fill o = block_fill b) new.
Proof.
  intro Hb.
  assert (G : forall S fl st',
             styled_inv S fl (content (out st)) st' ->
             (font_family S, font_style S, font_size_pt S, text_color S)
             = block_style b ->
             (if fl then Some (fill_color S) else None) = block_fill b ->
             exists new,
               content (out st') = (content (out st) ++ new)%list
               /\ Forall (fun o => p_sty o = block_style b
                                   /\ p_fill o = block_fill b) new).
  { intros S fl st' (_ & _ & new & Hc & Hf) E1 E2. exists new. split; [exact Hc|].
    unfold styled in Hf. rewrite E1, E2 in Hf. exact Hf. }
  destruct b; cbn [render state_of].
  - apply (G (sty (set_text_color 0 100 180 (set_font "Helvetica" "B" 18 st)))
              false); [|reflexivity..].
    unfold chapter_title. cbv zeta. apply styled_cursor, styled_cell.
    apply (styled_start (set_text_color 0 100 180 (set_font "Helvetica" "B" 18 st)) false Hb).
  - apply (G (sty (set_text_color 50 50 50 (set_font "Helvetica" "B" 14 st)))
              false); [|reflexivity..].
    unfold section_title. cbv zeta. apply styled_cursor, styled_cell.
    apply (styled_start (set_text_color 50 50 50 (set_font "Helvetica" "B" 14 st)) false Hb).
  - apply (G (sty (set_text_color 80 80 80 (set_font "Helvetica" "B" 11 st)))
              false); [|reflexivity..].
    unfold subsection_title. cbv zeta. apply styled_cursor, styled_cell.
    apply (styled_start (set_text_color 80 80 80 (set_font "Helvetica" "B" 11 st)) false Hb).
  - apply (G (sty (set_text_color 0 0 0 (set_font "Helvetica" "" 10 st)))
              false); [|reflexivity..].
    unfold body_text, multi_cell. cbv zeta.
    apply styled_cursor, styled_cursor, styled_cells.
    + intros s l Hs. apply styled_cell, Hs.
    + apply (styled_start
               (set_x 10 (set_text_color 0 0 0 (set_font "Helvetica" "" 10 st)))
               false Hb).
  - apply (G (sty (set_text_color 0 0 0
                       (set_fill_color 240 240 240 (set_font "Courier" "" 9 st))))
              true); [|reflexivity..].
    unfold code_block. cbv zeta. apply styled_cursor, styled_cells.
    + intros s l Hs. unfold code_line. cbv zeta.
      apply styled_cell. exact Hs.
    + apply (styled_start
               (set_text_color 0 0 0
                  (set_fill_color 240 240 240 (set_font "Courier" "" 9 st)))
               true Hb).
  - apply (G (sty (set_text_color 0 0 0 (set_font "Helvetica" "" 10 st)))
              false); [|reflexivity..].
    unfold bullet_point, multi_cell. cbv zeta.
    apply styled_cursor, styled_cells.
    + intros s l Hs. apply styled_cell, Hs.
    + apply (styled_start
               (set_x 10 (set_text_color 0 0 0 (set_font "Helvetica" "" 10 st)))
               false Hb).
  - apply (G (sty (header_prelude st)) true); [|reflexivity..].
    rewrite table_header_unfold.
    apply styled_bind_ln, styled_table_cells; [reflexivity|].
    apply (styled_start (header_prelude st) true Hb).
  - apply (G (sty (row_prelude fill st)) true); [|destruct fill; reflexivity..].
    rewrite table_row_unfold.
    apply styled_bind_ln, styled_table_cells; [reflexivity|].
    rewrite <- (row_prelude_out fill st).
    apply (styled_start (row_prelude fill st) true).
    rewrite row_prelude_hook. exact Hb.
Qed.

Lemma drop_fill_prelude f s z r g b (st : pdf) :
  drop_fill (set_text_color r g b (set_font f s z st))
  = with_sty (mkStyle f s z (r, g, b) (0, 0, 0)) st.
Proof. reflexivity. Qed.

Lemma drop_fill_ln h (st : pdf) : drop_fill (ln h st) = ln h (drop_fill st).
Proof. reflexivity. Qed.

Lemma drop_fill_set_x v (st : pdf) : drop_fill (set_x v st) = set_x v (drop_fill st).
Proof. reflexivity. Qed.

Lemma heading_drop_fill f s z r g b h gap title (st1 st2 : pdf) :
  same_layout st1 st2 ->
  drop_fill (ln (Some gap) (cell 0 h title false 1%nat AlignL false
                                 (set_text_color r g b (set_font f s z st1))))
  = drop_fill (ln (Some gap) (cell 0 h title false 1%nat AlignL false
                                   (set_text_color r g b (set_font f s z st2)))).
Proof.
  intro H. rewrite !drop_fill_ln, !drop_fill_cell, !drop_fill_prelude.
  rewrite (same_layout_with_sty _ st1 st2 H). reflexivity.
Qed.

Lemma paragraph_drop_fill wrap txt (st1 st2 : pdf) :
  same_layout st1 st2 ->
  drop_fill (multi_cell wrap 0 5 txt
               (set_x 10 (set_text_color 0 0 0 (set_font "Helvetica" "" 10 st1))))
  = drop_fill (multi_cell wrap 0 5 txt
                 (set_x 10 (set_text_color 0 0 0 (set_font "Helvetica" "" 10 st2)))).
Proof.
  intro H. rewrite !drop_fill_multi_cell, !drop_fill_set_x, !drop_fill_prelude.
  rewrite (same_layout_with_sty _ st1 st2 H). reflexivity.
Qed.

(** A renderer started from two states that differ only in style ends
    in two states that differ at most in the fill colour. *)
Lemma render_drop_fill wrap (b : block) (st1 st2 : pdf) :
  same_layout st1 st2 ->
  is_done (render wrap b st1) = is_done (render wrap b st2)
  /\ drop_fill (state_of (render wrap b st1))
     = drop_fill (state_of (render wrap b st2)).
Proof.
  intro H.
  assert (Full : forall s, with_sty s st1 = with_sty s st2)
    by (intro s; apply same_layout_with_sty, H).
  destruct b; cbn [render state_of is_done].
  - split; [reflexivity|]. apply heading_drop_fill, H.
  - split; [reflexivity|]. apply heading_drop_fill, H.
  - split; [reflexivity|]. apply heading_drop_fill, H.
  - split; [reflexivity|]. unfold body_text. cbv zeta.
    rewrite !drop_fill_ln, (paragraph_drop_fill wrap text st1 st2 H). reflexivity.
  - assert (E : code_block code st1 = code_block code st2).
    { unfold code_block. cbv zeta.
      change (set_text_color 0 0 0
                (set_fill_color 240 240 240 (set_font "Courier" "" 9 st1)))
        with (with_sty (mkStyle "Courier" "" 9 (0, 0, 0) (240, 240, 240)) st1).
      change (set_text_color 0 0 0
                (set_fill_color 240 240 240 (set_font "Courier" "" 9 st2)))
        with (with_sty (mkStyle "Courier" "" 9 (0, 0, 0) (240, 240, 240)) st2).
      rewrite Full. reflexivity. }
    rewrite E. split; reflexivity.
  - split; [reflexivity|]. unfold bullet_point. cbv zeta.
    apply paragraph_drop_fill, H.
  - assert (E : header_prelude st1 = header_prelude st2).
    { change (header_prelude st1)
        with (with_sty (mkStyle "Helvetica" "B" 9 (255, 255, 255) (0, 100, 180)) st1).
      change (header_prelude st2)
        with (with_sty (mkStyle "Helvetica" "B" 9 (255, 255, 255) (0, 100, 180)) st2).
      apply Full. }
    rewrite !table_header_unfold, E. split; reflexivity.
  - assert (E : row_prelude fill st1 = row_prelude fill st2).
    { destruct fill.
      - change (row_prelude true st1)
          with (with_sty (mkStyle "Courier" "" 8 (0, 0, 0) (248, 248, 248)) st1).
        change (row_prelude true st2)
          with (with_sty (mkStyle "Courier" "" 8 (0, 0, 0) (248, 248, 248)) st2).
        apply Full.
      - change (row_prelude false st1)
          with (with_sty (mkStyle "Courier" "" 8 (0, 0, 0) (255, 255, 255)) st1).
        change (row_prelude false st2)
          with (with_sty (mkStyle "Courier" "" 8 (0, 0, 0) (255, 255, 255)) st2).
        apply Full. }
    rewrite !table_row_unfold, E. split; reflexivity.
Qed.

(** C10.  Every block renderer sets font family, style, size and text
    colour (and the fill colour when it draws a background) before it
    places anything: all the cells it places carry its own style, and
    two runs of the same call from states that differ only in the
    style found on entry place the same cells at the same positions
    and leave the cursor, the page and the font in the same state. *)
Theorem C10_renderers_set_their_style
        (wrap : string -> string -> Z -> Z -> string -> list string)
        (b : block) (st1 st2 : pdf) :
  in_hook st1 = Body ->
  same_layout st1 st2 ->
  let r1 := render wrap b st1 in
  let r2 := render wrap b st2 in
  (exists new,
      content (out (state_of r1)) = (content (out st1) ++ new)%list
      /\ Forall (fun o => p_sty o = block_style b /\ p_fill o = block_fill b) new)
  /\ is_done r1 = is_done r2
  /\ out (state_of r1) = out (state_of r2)
  /\ same_layout (state_of r1) (state_of r2)
  /\ font_family (sty (state_of r1)) = font_family (sty (state_of r2))
  /\ font_style (sty (state_of r1)) = font_style (sty (state_of r2))
  /\ font_size_pt (sty (state_of r1)) = font_size_pt (sty (state_of r2))
  /\ text_color (sty (state_of r1)) = text_color (sty (state_of r2)).
Proof.
  intros Hb H r1 r2. subst r1 r2.
  destruct (render_drop_fill wrap b st1 st2 H) as [D E].
  destruct (drop_fill_layout _ _ E) as (L & F1 & F2 & F3 & F4).
  split; [apply render_styled, Hb|].
  split; [exact D|].
  split; [apply L|].
  repeat split; try assumption; apply L.
Qed.

(** * Instances

    Each theorem above that has a premise, applied to a sample input. *)

Lemma C1_witness :
  in_hook demo_low = Body
  /\ sty (add_page demo_low) = sty demo_low
  /\ (1 <= page_no demo_low)%nat
  /\ sty (header (begin_page demo_low))
     = mkStyle "Helvetica" "I" 9 (128, 128, 128) (fill_color (sty demo_low))
  /\ will_page_break 20 demo_low = true
  /\ page_no (cell 0 20 "x" false 1%nat AlignL false demo_low)
     = S (page_no demo_low).
Proof.
  assert (Hp : (1 <= page_no demo_low)%nat) by (cbn; lia).
  destruct (C1_style_survives_page_break demo_low eq_refl)
    as (H1 & H2 & H3 & _).
  split; [reflexivity|]. split; [exact H1|]. split; [exact Hp|].
  split; [exact (H2 Hp)|]. split; [reflexivity|].
  exact (proj1 (H3 0 20 "x" false 1%nat AlignL false eq_refl)).
Defined.

Lemma C2_witness :
  generate demo_wrap demo_calls = Some demo_doc
  /\ (1 <= page_no demo_doc)%nat
  /\ decor (out demo_doc) = full_decor (page_no demo_doc)
  /\ header demo_start = demo_start
  /\ get_x (header (with_hook InHeader (begin_page demo_start))) = l_margin
  /\ out (footer (with_hook InFooter demo_start))
     = [footer_cell 1].
Proof.
  assert (G : generate demo_wrap demo_calls = Some demo_doc)
    by (vm_compute; reflexivity).
  split; [exact G|].
  destruct (C2_running_decorations demo_wrap demo_calls demo_doc G)
    as (Ha & Hb & Hc & H1 & H2 & _).
  split; [exact H1|]. split; [exact H2|].
  split; [exact (Ha demo_start eq_refl)|].
  split.
  - assert (L : (1 < 2)%nat) by lia.
    exact (proj2 (Hb (with_hook InHeader (begin_page demo_start)) 2%nat
                     eq_refl L eq_refl eq_refl eq_refl)).
  - exact (Hc (with_hook InFooter demo_start) eq_refl).
Defined.

Lemma C3_witness :
  in_hook demo_low = Body
  /\ Forall (fun row => (List.length row <= List.length [50; 100])%nat)
            [["a"; "b"]; ["c"; "d"]; ["e"; "f"]]
  /\ exists st' new,
      table_rows 0 [["a"; "b"]; ["c"; "d"]; ["e"; "f"]] [50; 100] demo_low
      = Done st'
      /\ content (out st') = (content (out demo_low) ++ new)%list
      /\ map txt_fill new
         = striped 0 [["a"; "b"]; ["c"; "d"]; ["e"; "f"]]
      /\ exists before after,
          striped 0 [["a"; "b"]; ["c"; "d"]; ["e"; "f"]]
          = (before
             ++ [("c", Some (255, 255, 255)); ("d", Some (255, 255, 255))]
             ++ after)%list.
Proof.
  assert (F : Forall (fun row => (List.length row <= List.length [50; 100])%nat)
                     [["a"; "b"]; ["c"; "d"]; ["e"; "f"]])
    by (repeat constructor).
  split; [reflexivity|]. split; [exact F|].
  destruct (C3_stripe_by_index [["a"; "b"]; ["c"; "d"]; ["e"; "f"]] [50; 100]
              demo_low eq_refl F) as (st' & new & E & C & T & N).
  exists st', new. split; [exact E|]. split; [exact C|]. split; [exact T|].
  exact (N 1%nat ["c"; "d"] eq_refl).
Defined.

Lemma C4_witness :
  in_hook demo_low = Body
  /\ (1 <= page_no demo_low)%nat
  /\ get_y demo_low = page_break_trigger - 12
  /\ PyStr.split PyStr.nl (PyStr.strip demo_code) = ["l1"; "l2"; "l3"]
  /\ page_no (code_block demo_code demo_low) = 2%nat
  /\ t_margin <= get_y demo_start
  /\ exists new,
      content (out (code_block demo_code demo_start))
      = (content (out demo_start) ++ new)%list
      /\ List.length new
         = List.length (PyStr.split PyStr.nl (PyStr.strip demo_code))
      /\ Forall (fun o => t_margin <= p_y o
                          /\ p_y o + p_h o <= page_h - b_margin) new.
Proof.
  assert (Hp : (1 <= page_no demo_low)%nat) by (cbn; lia).
  assert (Hs : PyStr.split PyStr.nl (PyStr.strip demo_code) = ["l1"; "l2"; "l3"])
    by reflexivity.
  split; [reflexivity|]. split; [exact Hp|]. split; [reflexivity|].
  split; [exact Hs|].
  destruct (C4_code_block_across_break demo_low demo_code "l1" "l2" "l3"
              eq_refl Hp eq_refl Hs) as (_ & _ & H3 & H4).
  assert (Hy : t_margin <= get_y demo_start) by (vm_compute; discriminate).
  split; [exact H3|]. split; [exact Hy|].
  exact (H4 demo_code demo_start eq_refl Hy).
Defined.

Lemma C5_witness :
  in_hook demo_low = Body
  /\ List.length (PyStr.split PyStr.nl (PyStr.strip demo_code))
     = S (PyStr.count_char PyStr.nl (PyStr.strip demo_code)).
Proof.
  split; [reflexivity|].
  exact (proj2 (proj2 (proj2 (C5_code_block_lines demo_code demo_low eq_refl)))).
Defined.

Lemma C6_witness :
  (List.length ["a"] <= List.length [50; 60])%nat
  /\ (exists st', table_row ["a"] [50; 60] true demo_start = Done st')
  /\ (List.length [50] < List.length ["a"; "b"])%nat
  /\ in_hook demo_start = Body
  /\ (exists st' new,
         table_row ["a"; "b"] [50] true demo_start = IndexError st'
         /\ content (out st') = (content (out demo_start) ++ new)%list
         /\ map p_txt new = firstn (List.length [50]) ["a"; "b"]
         /\ sty st' = mkStyle "Courier" "" 8 (0, 0, 0) (stripe true)).
Proof.
  assert (L1 : (List.length ["a"] <= List.length [50; 60])%nat) by (cbn; lia).
  assert (L2 : (List.length [50] < List.length ["a"; "b"])%nat) by (cbn; lia).
  split; [exact L1|]. split.
  - exact (proj1 (proj1 (C6_table_width_mismatch ["a"] [50; 60] true demo_start) L1)).
  - split; [exact L2|]. split; [reflexivity|].
    exact (proj1 (proj2 (C6_table_width_mismatch ["a"; "b"] [50] true demo_start)
                        L2 eq_refl)).
Defined.

Lemma C9_witness :
  in_hook demo_low = Body
  /\ PyStr.all_space (String PyStr.nl "  ") = true
  /\ PyStr.all_space (String " " (String PyStr.nl "")) = true
  /\ PyStr.split PyStr.nl (PyStr.strip demo_framed) = ["a"; ""; "b"].
Proof.
  split; [reflexivity|]. split; [reflexivity|]. split; [reflexivity|].
  destruct (C9_code_block_strips demo_framed demo_low eq_refl)
    as (_ & _ & _ & _ & _ & H).
  apply (H (String PyStr.nl "  ") (String " " (String PyStr.nl ""))
           ["a"; ""; "b"] "a"%char "b"%char);
    try reflexivity.
  - discriminate.
  - repeat constructor.
Defined.

Lemma C10_witness :
  in_hook demo_low = Body
  /\ same_layout demo_low (set_font "Courier" "I" 30 (set_text_color 1 2 3 demo_low))
  /\ out (state_of (render demo_wrap (BodyText "Done.") demo_low))
     = out (state_of (render demo_wrap (BodyText "Done.")
                        (set_font "Courier" "I" 30 (set_text_color 1 2 3 demo_low)))).
Proof.
  assert (L : same_layout demo_low
                (set_font "Courier" "I" 30 (set_text_color 1 2 3 demo_low)))
    by (repeat split).
  split; [reflexivity|]. split; [exact L|].
  exact (proj1 (proj2 (proj2
           (C10_renderers_set_their_style demo_wrap (BodyText "Done.") demo_low _
              eq_refl L)))).
Defined.

(** * Further properties of the renderers and of the composition *)

(** ** Content stays in the content area *)

Lemma content_top_S (n : nat) :
  content_top (S n) = if (0 <? n)%nat then t_margin + 10 else t_margin.
Proof. destruct n; reflexivity. Qed.

Lemma content_top_bounds (p : nat) :
  t_margin <= content_top p <= t_margin + 10.
Proof. unfold content_top, t_margin. destruct (1 <? p)%nat; lia. Qed.

Lemma inside_sty (s : style) (st : pdf) : inside st -> inside (with_sty s st).
Proof. intro H; exact H. Qed.

Lemma inside_cursor (nx ny : Z) (st : pdf) :
  get_y st <= ny -> inside st -> inside (with_cursor nx ny st).
Proof.
  intros L (Hb & Hy & Hl & Hc). repeat split; try assumption.
  cbn [with_cursor get_y page_no]. lia.
Qed.

Lemma inside_set_x (v : Z) (st : pdf) : inside st -> inside (set_x v st).
Proof. intro H. unfold set_x. apply inside_cursor; [lia | exact H]. Qed.

Lemma inside_ln (h : option Z) (st : pdf) :
  match h with Some v => 0 <= v | None => True end ->
  inside st -> inside (ln h st).
Proof.
  intros Hh H. unfold ln. apply inside_cursor; [|exact H].
  destruct H as (_ & _ & Hl & _). destruct h; lia.
Qed.

Lemma add_page_lasth (st : pdf) :
  lasth (add_page st) = if (0 <? page_no st)%nat then 10 else lasth st.
Proof.
  destruct st as [p cx cy lh hk s o]; destruct p as [|[|p]]; reflexivity.
Qed.

Lemma add_page_content (st : pdf) :
  content (out (add_page st)) = content (out st).
Proof.
  rewrite add_page_out, content_app, content_transition. apply app_nil_r.
Qed.

Lemma inside_add_page (st : pdf) : inside st -> inside (add_page st).
Proof.
  intros (Hb & Hy & Hl & Hc). split; [reflexivity|]. split; [|split].
  - rewrite add_page_page_no, add_page_y, content_top_S. lia.
  - rewrite add_page_lasth. destruct (0 <? page_no st)%nat; lia.
  - rewrite add_page_content. exact Hc.
Qed.

Lemma will_page_break_body (h : Z) (st : pdf) :
  in_hook st = Body ->
  will_page_break h st = (page_break_trigger <? get_y st + h).
Proof.
  intro Hb. unfold will_page_break, in_footer, auto_page_break.
  rewrite Hb. cbn [negb]. rewrite !andb_true_r. reflexivity.
Qed.

(** The cell that [cell] places lies in the content area when its
    height fits on a page that has a header. *)
Lemma cell_at_inside w h txt border al fill (st : pdf) :
  0 <= h <= page_break_trigger - (t_margin + 10) ->
  inside st ->
  within (cell_at w h txt border al fill st)
  /\ content_top (page_no (cell w h txt border 0%nat al fill st))
     <= p_y (cell_at w h txt border al fill st).
Proof.
  intros Hh (Hb & Hy & Hl & Hc).
  rewrite cell_page_no. unfold within, cell_at. cbn [p_page p_y p_h].
  rewrite (will_page_break_body h st Hb).
  destruct (page_break_trigger <? get_y st + h) eqn:B.
  - rewrite add_page_y, content_top_S.
    destruct (0 <? page_no st)%nat; lia.
  - apply Z.ltb_ge in B. lia.
Qed.

Lemma inside_cell w h txt border lnmode al fill (st : pdf) :
  0 <= h <= page_break_trigger - (t_margin + 10) ->
  inside st -> inside (cell w h txt border lnmode al fill st).
Proof.
  intros Hh H.
  destruct (cell_at_inside w h txt border al fill st Hh H) as [W T].
  destruct H as (Hb & Hy & Hl & Hc).
  split; [apply cell_hook, Hb|]. split; [|split].
  - rewrite cell_y. rewrite cell_page_no in *.
    destruct lnmode as [|n]; lia.
  - rewrite cell_lasth. lia.
  - rewrite cell_content by exact Hb. apply Forall_app. split; [exact Hc|].
    constructor; [exact W | constructor].
Qed.

Lemma inside_cells (f : pdf -> string -> pdf) (lines : list string) (st : pdf) :
  (forall s l, inside s -> inside (f s l)) ->
  inside st -> inside (fold_left f lines st).
Proof.
  intro Hf. revert st.
  induction lines as [|l ls IH]; intros st H; cbn [fold_left]; auto.
Qed.

Lemma room_for (h : Z) :
  0 <= h <= 12 -> 0 <= h <= page_break_trigger - (t_margin + 10).
Proof. unfold page_break_trigger, page_h, b_margin, t_margin. lia. Qed.

Lemma inside_multi_cell wrap w txt (st : pdf) :
  inside st -> inside (multi_cell wrap w 5 txt st).
Proof.
  intro H. unfold multi_cell. apply inside_cursor; [lia|].
  apply inside_cells; [|exact H].
  intros s l Hs. apply inside_cell; [apply room_for; lia | exact Hs].
Qed.

Lemma inside_table_cells h al i cols widths (st : pdf) :
  0 <= h <= 12 ->
  inside st -> inside (state_of (table_cells h al i cols widths st)).
Proof.
  intro Hh. revert i st.
  induction cols as [|c cs IH]; intros i st H; cbn [table_cells].
  - exact H.
  - destruct (nth_error widths i); [|exact H].
    apply IH, inside_cell; [apply room_for, Hh | exact H].
Qed.

Lemma inside_bind_ln (r : result) :
  inside (state_of r) ->
  inside (state_of (bind r (fun st => Done (ln None st)))).
Proof.
  destruct r; cbn [bind state_of]; intro H; [|exact H].
  apply inside_ln; [exact I | exact H].
Qed.

Lemma inside_table_row cols widths fill (st : pdf) :
  inside st -> inside (state_of (table_row cols widths fill st)).
Proof.
  intro H. rewrite table_row_unfold.
  apply inside_bind_ln, inside_table_cells; [lia|].
  destruct fill; exact H.
Qed.

Lemma inside_table_rows rows widths i (st : pdf) :
  inside st -> inside (state_of (table_rows i rows widths st)).
Proof.
  revert i st. induction rows as [|r rs IH]; intros i st H; cbn [table_rows].
  - exact H.
  - pose proof (inside_table_row r widths (i mod 2 =? 0)%nat st H) as Hr.
    destruct (table_row r widths (i mod 2 =? 0)%nat st); cbn [bind state_of] in *.
    + apply IH, Hr.
    + exact Hr.
Qed.

Lemma inside_heading f s z r g b h gap title (st : pdf) :
  0 <= h <= 12 -> 0 <= gap ->
  inside st ->
  inside (ln (Some gap)
             (cell 0 h title false 1%nat AlignL false
                   (set_text_color r g b (set_font f s z st)))).
Proof.
  intros Hh Hg H. apply inside_ln; [exact Hg|].
  apply inside_cell; [apply room_for, Hh | exact H].
Qed.

Lemma inside_render wrap (b : block) (st : pdf) :
  inside st -> inside (state_of (render wrap b st)).
Proof.
  intro H. destruct b; cbn [render state_of].
  - apply inside_heading; [lia | lia | exact H].
  - apply inside_heading; [lia | lia | exact H].
  - apply inside_heading; [lia | lia | exact H].
  - unfold body_text. cbv zeta. apply inside_ln; [lia|].
    apply inside_multi_cell, inside_set_x. exact H.
  - unfold code_block. cbv zeta. apply inside_ln; [lia|].
    apply inside_cells; [|exact H].
    intros s l Hs. unfold code_line. cbv zeta.
    apply inside_cell; [apply room_for; lia | apply inside_set_x, Hs].
  - unfold bullet_point. cbv zeta.
    apply inside_multi_cell, inside_set_x. exact H.
  - rewrite table_header_unfold.
    apply inside_bind_ln, inside_table_cells; [lia | exact H].
  - apply inside_table_row, H.
Qed.

Lemma inside_step wrap (c : call) (st : pdf) :
  tame c -> inside st -> inside (state_of (step wrap c st)).
Proof.
  intros T H. destruct c; cbn [step state_of].
  - apply inside_add_page, H.
  - exact H.
  - exact H.
  - apply inside_ln; [|exact H]. destruct h; [exact T | exact I].
  - apply inside_cell; [exact T | exact H].
  - apply inside_render, H.
  - apply inside_table_rows, H.
Qed.

Lemma inside_run wrap (cs : list call) (st : pdf) :
  Forall tame cs -> inside st -> inside (state_of (run wrap cs st)).
Proof.
  revert st. induction cs as [|c rest IH]; intros st F H; cbn [run].
  - exact H.
  - inversion F as [|? ? Tc Tr]; subst.
    pose proof (inside_step wrap c st Tc H) as Hc.
    destruct (step wrap c st); cbn [bind state_of] in *.
    + apply IH; assumption.
    + exact Hc.
Qed.

Lemma close_content (st : pdf) :
  content (out (close st)) = content (out st).
Proof.
  destruct (page_no st =? 0)%nat eqn:E.
  - apply Nat.eqb_eq in E.
    assert (Hc : close st = close (add_page st)).
    { unfold close. rewrite add_page_page_no, E. reflexivity. }
    rewrite Hc, close_out by (rewrite add_page_page_no; lia).
    rewrite content_app, add_page_content. apply app_nil_r.
  - apply Nat.eqb_neq in E. rewrite close_out by lia.
    rewrite content_app. apply app_nil_r.
Qed.

Lemma inside_new_pdf : inside new_pdf.
Proof.
  repeat split; try reflexivity; try (cbn; lia); try discriminate.
  constructor.
Qed.

Lemma in_full_decor (d : placed) (n : nat) :
  In d (full_decor n) ->
  exists q, d = footer_cell q \/ ((1 < q)%nat /\ In d (header_cells q)).
Proof.
  unfold full_decor. intro H. apply in_flat_map in H.
  destruct H as (q & _ & Hq). exists q.
  apply in_app_or in Hq. destruct Hq as [Hh | [Hf | []]].
  - right. split; [|exact Hh].
    unfold header_cells in Hh.
    destruct (1 <? q)%nat eqn:E; [apply Nat.ltb_lt, E | destruct Hh].
  - left. symmetry. exact Hf.
Qed.

(** X1.  In every document composed of block renderer calls, page
    additions and tame direct calls, each content cell lies between
    the top of the content area (under the header on pages after the
    first) and the bottom margin, so that no content cell overlaps a
    header or footer cell of its page. *)
Theorem X1_content_clear_of_decorations
        (wrap : string -> string -> Z -> Z -> string -> list string)
        (cs : list call) (doc : pdf) :
  Forall tame cs ->
  generate wrap cs = Some doc ->
  Forall within (content (out doc))
  /\ (forall o d,
        In o (out doc) -> In d (out doc) ->
        is_body o = true -> is_body d = false ->
        p_page o = p_page d ->
        v_disjoint o d).
Proof.
  intros T G.
  destruct (generate_inv wrap cs doc G) as [_ Hd].
  unfold generate in G.
  pose proof (inside_run wrap cs new_pdf T inside_new_pdf) as I.
  destruct (run wrap cs new_pdf) as [st|st]; [|discriminate].
  injection G as <-. cbn [state_of] in I.
  destruct I as (_ & _ & _ & Hc).
  assert (W : Forall within (content (out (close st))))
    by (rewrite close_content; exact Hc).
  split; [exact W|].
  intros o d Io Id Bo Bd Pg.
  assert (Wo : within o).
  { rewrite Forall_forall in W. apply W. unfold content.
    apply filter_In. split; assumption. }
  assert (Dd : In d (full_decor (page_no (close st)))).
  { rewrite <- Hd. unfold decor. apply filter_In. split; [exact Id|].
    rewrite Bd. reflexivity. }
  destruct (in_full_decor d _ Dd) as (q & [-> | [Hq Hh]]).
  - left. destruct Wo as [_ Wb]. cbn [footer_cell p_y].
    unfold page_break_trigger, page_h, b_margin in *. lia.
  - right. destruct Wo as [Wt _].
    unfold header_cells in Hh.
    replace (1 <? q)%nat with true in Hh by (symmetry; apply Nat.ltb_lt, Hq).
    assert (E : p_page d = q /\ p_y d + p_h d = t_margin + 10).
    { destruct Hh as [<- | [<- | []]]; split; reflexivity. }
    destruct E as [Ep Ey]. rewrite Pg, Ep in Wt. unfold content_top in Wt.
    replace (1 <? q)%nat with true in Wt by (symmetry; apply Nat.ltb_lt, Hq).
    lia.
Qed.

(** ** Pages are produced in order *)

Lemma ordered_weaken (lo m : nat) (l : list placed) :
  (lo <= m)%nat -> ordered_from m l -> ordered_from lo l.
Proof. destruct l as [|o r]; cbn; [auto|]. intros L [H1 H2]. split; [lia | exact H2]. Qed.

Lemma ordered_app (lo m : nat) (l1 l2 : list placed) :
  ordered_from lo l1 ->
  Forall (fun o => (p_page o <= m)%nat) l1 ->
  (lo <= m)%nat ->
  ordered_from m l2 ->
  ordered_from lo (l1 ++ l2).
Proof.
  revert lo. induction l1 as [|o r IH]; intros lo O F L O2; cbn [app].
  - apply (ordered_weaken lo m); assumption.
  - destruct O as [H1 H2]. inversion F as [|? ? Fo Fr]; subst.
    split; [exact H1|]. apply IH; assumption.
Qed.

Lemma ordered_transition (n : nat) :
  ordered_from n (transition_decor n)
  /\ Forall (fun o => (p_page o <= S n)%nat) (transition_decor n).
Proof.
  destruct n as [|n].
  - split; [exact I | constructor].
  - cbn. split; [lia|]. repeat constructor; cbn; lia.
Qed.

Lemma Forall_page_le (m m' : nat) (l : list placed) :
  (m <= m')%nat ->
  Forall (fun o => (p_page o <= m)%nat) l ->
  Forall (fun o => (p_page o <= m')%nat) l.
Proof.
  intros L F. eapply Forall_impl; [|exact F]. cbn. intros o H. lia.
Qed.

Lemma grows_extend (st0 s s' : pdf) (added : list placed) :
  grows_from st0 s ->
  (page_no s <= page_no s')%nat ->
  out s' = (out s ++ added)%list ->
  ordered_from (page_no s) added ->
  Forall (fun o => (p_page o <= page_no s')%nat) added ->
  grows_from st0 s'.
Proof.
  intros (L & new & E & O & F) L' E' O' F'. split; [lia|].
  exists (new ++ added)%list. split; [|split].
  - rewrite E', E, app_assoc. reflexivity.
  - apply (ordered_app _ (page_no s)); assumption.
  - apply Forall_app. split; [|exact F'].
    apply (Forall_page_le (page_no s)); assumption.
Qed.

Lemma grows_refl (st : pdf) : grows_from st st.
Proof.
  split; [lia|]. exists []. rewrite app_nil_r.
  split; [reflexivity|]. split; [exact I | constructor].
Qed.

Lemma grows_add_page (st0 st : pdf) :
  grows_from st0 st -> grows_from st0 (add_page st).
Proof.
  intro H. destruct (ordered_transition (page_no st)) as [O F].
  apply (grows_extend st0 st _ (transition_decor (page_no st)) H).
  - rewrite add_page_page_no. lia.
  - apply add_page_out.
  - exact O.
  - rewrite add_page_page_no. exact F.
Qed.

Lemma grows_cell w h txt border lnmode al fill (st0 st : pdf) :
  grows_from st0 st ->
  grows_from st0 (cell w h txt border lnmode al fill st).
Proof.
  intro H. destruct (ordered_transition (page_no st)) as [O F].
  eapply (grows_extend st0 st _ _ H).
  - rewrite cell_page_no. destruct (will_page_break h st); lia.
  - apply cell_out.
  - unfold cell_at. destruct (will_page_break h st).
    + apply (ordered_app _ (S (page_no st))); [exact O | exact F | lia |].
      cbn. split; [lia | exact I].
    + cbn. split; [lia | exact I].
  - rewrite cell_page_no. unfold cell_at. destruct (will_page_break h st).
    + apply Forall_app. split; [exact F|]. repeat constructor.
    + repeat constructor.
Qed.

(** X2.  Whatever calls are run, and whether or not they end in an
    exception, nothing already placed is moved or removed, and the
    cells added are in page order on the pages from the one that was
    open to the one that is open afterwards: a page is never drawn on
    again once a later page has been started. *)
Theorem X2_pages_in_order
        (wrap : string -> string -> Z -> Z -> string -> list string)
        (cs : list call) (st : pdf) :
  let st' := state_of (run wrap cs st) in
  (page_no st <= page_no st')%nat
  /\ exists new,
      out st' = (out st ++ new)%list
      /\ ordered_from (page_no st) new
      /\ Forall (fun o => (p_page o <= page_no st')%nat) new.
Proof.
  cbv zeta. change (grows_from st (state_of (run wrap cs st))).
  apply (P_run wrap (grows_from st)).
  - intros nx ny s H; exact H.
  - intros s0 s H; exact H.
  - intros. apply grows_cell. assumption.
  - intros. apply grows_add_page. assumption.
  - apply grows_refl.
Qed.

(** ** Table rows are atomic *)

Lemma cell_at_no_break w h txt border al fill (st : pdf) :
  will_page_break h st = false ->
  p_page (cell_at w h txt border al fill st) = page_no st
  /\ p_y (cell_at w h txt border al fill st) = get_y st.
Proof. intro B. unfold cell_at. rewrite B. split; reflexivity. Qed.

(** Once a cell of the row has been placed without moving down, the
    rest of the row follows on the same page at the same ordinate. *)
Lemma row_cells_level h al i cols widths (st : pdf) :
  will_page_break h st = false ->
  Forall (fun o => p_page o = page_no st /\ p_y o = get_y st /\ p_h o = h)
         (row_cells h al i cols widths st)
  /\ page_no (state_of (table_cells h al i cols widths st)) = page_no st
  /\ get_y (state_of (table_cells h al i cols widths st)) = get_y st
  /\ (cols <> [] -> nth_error widths i <> None ->
      lasth (state_of (table_cells h al i cols widths st)) = h).
Proof.
  revert i st. induction cols as [|c cs IH]; intros i st B;
    cbn [row_cells table_cells].
  - repeat split; [constructor | intros N; contradiction].
  - destruct (nth_error widths i) as [w|] eqn:E.
    + rewrite (cell_no_break w h c true 0%nat al true st B).
      assert (B' : will_page_break h (draw_cell w h c true 0%nat al true st)
                   = false) by exact B.
      destruct (IH (S i) _ B') as (F & P & Y & L).
      destruct (cell_at_no_break w h c true al true st B) as [Cp Cy].
      repeat split.
      * constructor; [repeat split; assumption | exact F].
      * exact P.
      * exact Y.
      * intros _ _. destruct cs as [|c' cs'].
        -- reflexivity.
        -- destruct (nth_error widths (S i)) eqn:E2.
           ++ apply L; [discriminate | congruence].
           ++ cbn [table_cells]. rewrite E2. reflexivity.
    + repeat split; [constructor | intros _ N; contradiction].
Qed.

Lemma row_level h al i cols widths (st : pdf) :
  in_hook st = Body ->
  0 <= h <= page_break_trigger - (t_margin + 10) ->
  let st' := state_of (table_cells h al i cols widths st) in
  (page_no st <= page_no st' <= S (page_no st))%nat
  /\ (forall a b,
        In a (row_cells h al i cols widths st) ->
        In b (row_cells h al i cols widths st) ->
        p_page a = p_page b /\ p_y a = p_y b)
  /\ Forall (fun o => p_h o = h /\ p_page o = page_no st' /\ p_y o = get_y st')
            (row_cells h al i cols widths st)
  /\ (cols <> [] -> nth_error widths i <> None -> lasth st' = h).
Proof.
  intros Hb Hh. cbv zeta.
  assert (Main :
    (page_no st <= page_no (state_of (table_cells h al i cols widths st))
     <= S (page_no st))%nat
    /\ Forall (fun o => p_h o = h
                        /\ p_page o
                           = page_no (state_of (table_cells h al i cols widths st))
                        /\ p_y o
                           = get_y (state_of (table_cells h al i cols widths st)))
              (row_cells h al i cols widths st)
    /\ (cols <> [] -> nth_error widths i <> None ->
        lasth (state_of (table_cells h al i cols widths st)) = h)).
  { destruct cols as [|c cs]; cbn [row_cells table_cells].
    - cbn. repeat split; [lia | lia | constructor | intro N; contradiction].
    - destruct (nth_error widths i) as [w|] eqn:E.
      + set (st1 := cell w h c true 0%nat al true st).
        assert (H1 : in_hook st1 = Body) by (apply cell_hook, Hb).
        assert (Y1 : get_y st1 = p_y (cell_at w h c true al true st))
          by (unfold st1; rewrite cell_y; lia).
        assert (P1 : page_no st1 = p_page (cell_at w h c true al true st)).
        { unfold st1. rewrite cell_page_no. reflexivity. }
        assert (B1 : will_page_break h st1 = false).
        { rewrite (will_page_break_body h st1 H1), Y1. apply Z.ltb_ge.
          apply cell_at_fits; [exact Hb | lia]. }
        destruct (row_cells_level h al (S i) cs widths st1 B1) as (F & P & Y & L).
        rewrite P, Y. repeat split.
        * unfold st1. rewrite cell_page_no. destruct (will_page_break h st); lia.
        * unfold st1. rewrite cell_page_no. destruct (will_page_break h st); lia.
        * constructor; [split; [reflexivity | split; congruence]|].
          eapply Forall_impl; [|exact F]. cbn. intros o (A1 & A2 & A3).
          repeat split; assumption.
        * intros _ _. destruct cs as [|c' cs'].
          -- reflexivity.
          -- destruct (nth_error widths (S i)) eqn:E2.
             ++ apply L; [discriminate | congruence].
             ++ cbn [table_cells]. rewrite E2. reflexivity.
      + cbn. repeat split; [lia | lia | constructor | intros _ N; contradiction]. }
  destruct Main as (M1 & M2 & M3).
  split; [exact M1|]. split; [|split; [exact M2 | exact M3]].
  intros a b Ia Ib. rewrite Forall_forall in M2.
  destruct (M2 a Ia) as (_ & Pa & Ya). destruct (M2 b Ib) as (_ & Pb & Yb).
  split; congruence.
Qed.

(** X3.  A table row is atomic: the cells of one [table_row] call (and
    of one [table_header] call) all lie on one page at one ordinate,
    6 (respectively 7) high; the call starts at most one new page, and
    only before its first cell; and a call that draws at least one
    cell and completes leaves the cursor at the left margin, one row
    height below the row. *)
Theorem X3_table_row_atomic (cols : list string) (widths : list Z)
        (fill : bool) (st : pdf) :
  in_hook st = Body ->
  (let st' := state_of (table_row cols widths fill st) in
   exists new,
     content (out st') = (content (out st) ++ new)%list
     /\ (page_no st <= page_no st' <= S (page_no st))%nat
     /\ (forall a b, In a new -> In b new ->
                     p_page a = p_page b /\ p_y a = p_y b)
     /\ Forall (fun o => p_h o = 6 /\ p_page o = page_no st') new
     /\ (cols <> [] -> is_done (table_row cols widths fill st) = true ->
         get_x st' = l_margin
         /\ Forall (fun o => get_y st' = p_y o + 6) new))
  /\ (let st' := state_of (table_header cols widths st) in
      exists new,
        content (out st') = (content (out st) ++ new)%list
        /\ (page_no st <= page_no st' <= S (page_no st))%nat
        /\ (forall a b, In a new -> In b new ->
                        p_page a = p_page b /\ p_y a = p_y b)
        /\ Forall (fun o => p_h o = 7 /\ p_page o = page_no st') new
        /\ (cols <> [] -> is_done (table_header cols widths st) = true ->
            get_x st' = l_margin
            /\ Forall (fun o => get_y st' = p_y o + 7) new)).
Proof.
  intro Hb.
  assert (Gen : forall h al pre,
    in_hook pre = Body -> out pre = out st -> page_no pre = page_no st ->
    0 <= h <= page_break_trigger - (t_margin + 10) ->
    let r := bind (table_cells h al 0 cols widths pre)
                  (fun s => Done (ln None s)) in
    exists new,
      content (out (state_of r)) = (content (out st) ++ new)%list
      /\ (page_no st <= page_no (state_of r) <= S (page_no st))%nat
      /\ (forall a b, In a new -> In b new ->
                      p_page a = p_page b /\ p_y a = p_y b)
      /\ Forall (fun o => p_h o = h /\ p_page o = page_no (state_of r)) new
      /\ (cols <> [] -> is_done r = true ->
          get_x (state_of r) = l_margin
          /\ Forall (fun o => get_y (state_of r) = p_y o + h) new)).
  { intros h al pre Hp Ho Hn Hh r.
    destruct (row_level h al 0 cols widths pre Hp Hh) as (R1 & R2 & R3 & R4).
    pose proof (table_cells_content h al 0 cols widths pre Hp) as C.
    exists (row_cells h al 0 cols widths pre). subst r.
    destruct (table_cells h al 0 cols widths pre) as [s1|s1] eqn:E;
      cbn [bind state_of is_done ln out with_cursor page_no get_x get_y] in *.
    - split; [rewrite C, Ho; reflexivity|].
      split; [rewrite <- Hn; exact R1|]. split; [exact R2|]. split.
      + eapply Forall_impl; [|exact R3]. cbn. intros o (A1 & A2 & _). auto.
      + intros N _. split; [reflexivity|].
        assert (W : nth_error widths 0 <> None).
        { destruct cols as [|c cs]; [contradiction|].
          cbn [table_cells] in E. destruct (nth_error widths 0); discriminate. }
        rewrite (R4 N W).
        eapply Forall_impl; [|exact R3]. cbn. intros o (_ & _ & A3). lia.
    - split; [rewrite C, Ho; reflexivity|].
      split; [rewrite <- Hn; exact R1|]. split; [exact R2|]. split.
      + eapply Forall_impl; [|exact R3]. cbn. intros o (A1 & A2 & _). auto.
      + intros _ D. discriminate D. }
  split.
  - cbv zeta. rewrite table_row_unfold.
    apply (Gen 6 AlignL (row_prelude fill st)).
    + rewrite row_prelude_hook. exact Hb.
    + apply row_prelude_out.
    + destruct fill; reflexivity.
    + unfold page_break_trigger, page_h, b_margin, t_margin. lia.
  - cbv zeta. rewrite table_header_unfold.
    apply (Gen 7 AlignC (header_prelude st)).
    + exact Hb.
    + reflexivity.
    + reflexivity.
    + unfold page_break_trigger, page_h, b_margin, t_margin. lia.
Qed.

(** ** Horizontal layout of a table row *)




(** ** Which renderers depend on the abscissa found on entry *)

(** X5.  [body_text], [code_block] and [bullet_point] put the cursor
    on the left margin before they draw: started from two states that
    differ only in the abscissa of the cursor, each of them ends in
    the same state, having placed the same cells. *)
Theorem X5_abscissa_is_reset
        (wrap : string -> string -> Z -> Z -> string -> list string)
        (txt : string) (nx : Z) (st : pdf) :
  body_text wrap txt (with_cursor nx (get_y st) st) = body_text wrap txt st
  /\ code_block txt (with_cursor nx (get_y st) st) = code_block txt st
  /\ bullet_point wrap txt (with_cursor nx (get_y st) st)
     = bullet_point wrap txt st.
Proof.
  split; [reflexivity|]. split; [|reflexivity].
  unfold code_block. cbv zeta.
  destruct (PyStr.split PyStr.nl (PyStr.strip txt)) as [|l ls];
    reflexivity.
Qed.


(** ** A code block that fits *)

Lemma code_lines_stacked (lines : list string) (st : pdf) :
  in_hook st = Body ->
  sty st = mkStyle "Courier" "" 9 (0, 0, 0) (240, 240, 240) ->
  get_y st + 5 * Z.of_nat (List.length lines) <= page_break_trigger ->
  let st' := fold_left code_line lines st in
  out st' = (out st ++ stacked (page_no st) (get_y st) lines)%list
  /\ page_no st' = page_no st
  /\ get_y st' = get_y st + 5 * Z.of_nat (List.length lines)
  /\ in_hook st' = Body.
Proof.
  revert st. induction lines as [|l ls IH]; intros st Hb Hs Hy;
    cbn [fold_left stacked].
  - cbn [List.length Z.of_nat]. rewrite app_nil_r.
    repeat split; [lia | exact Hb].
  - cbn [List.length] in Hy. rewrite Nat2Z.inj_succ in Hy.
    assert (B : will_page_break 5 (set_x 10 st) = false).
    { rewrite will_page_break_body by exact Hb.
      apply Z.ltb_ge. cbn [set_x with_cursor get_y]. lia. }
    assert (E : code_line st l
                = draw_cell 0 5 ("  " ++ l) false 1%nat AlignL true (set_x 10 st)).
    { unfold code_line. apply cell_no_break, B. }
    assert (O : out (code_line st l)
                = (out st ++ [code_cell (page_no st) (get_y st) l])%list).
    { rewrite E. destruct st as [p cx cy lh hk s o].
      cbn in Hb, Hs. subst hk s. reflexivity. }
    destruct (IH (code_line st l)) as (I1 & I2 & I3 & I4).
    + rewrite E. exact Hb.
    + rewrite E. exact Hs.
    + rewrite E. cbn [draw_cell get_y set_x with_cursor]. lia.
    + cbv zeta. rewrite I1, I2, I3, O, <- app_assoc.
      rewrite E at 1 2 3 4. cbn [draw_cell get_y page_no set_x with_cursor].
      cbn [List.length]. rewrite Nat2Z.inj_succ.
      repeat split; [lia | exact I4].
Qed.

(** X7.  A code block whose lines all fit above the bottom margin is
    placed without a page break: line k (from 0) is drawn on the
    current page at the entry ordinate plus 5k, and the cursor ends on
    the left margin, 3 below the last line. *)
Theorem X7_code_block_that_fits (code : string) (st : pdf) :
  in_hook st = Body ->
  let lines := PyStr.split PyStr.nl (PyStr.strip code) in
  get_y st + 5 * Z.of_nat (List.length lines) <= page_break_trigger ->
  let st' := code_block code st in
  out st' = (out st ++ stacked (page_no st) (get_y st) lines)%list
  /\ page_no st' = page_no st
  /\ get_x st' = l_margin
  /\ get_y st' = get_y st + 5 * Z.of_nat (List.length lines) + 3.
Proof.
  intros Hb lines Hy st'. subst st' lines. unfold code_block. cbv zeta.
  set (pre := set_text_color 0 0 0
                (set_fill_color 240 240 240 (set_font "Courier" "" 9 st))).
  destruct (code_lines_stacked (PyStr.split PyStr.nl (PyStr.strip code)) pre)
    as (I1 & I2 & I3 & _); [exact Hb | reflexivity | exact Hy |].
  cbn [ln out page_no get_x get_y with_cursor].
  rewrite I1, I2, I3. repeat split.
Qed.

(** ** The style a renderer leaves behind *)

Lemma cells_sty (f : pdf -> string -> pdf) (lines : list string) (st : pdf) :
  (forall s l, sty (f s l) = sty s) ->
  sty (fold_left f lines st) = sty st.
Proof.
  intro Hf. revert st. induction lines as [|l ls IH]; intro st; cbn [fold_left].
  - reflexivity.
  - rewrite IH. apply Hf.
Qed.

Lemma multi_cell_sty wrap w h txt (st : pdf) :
  sty (multi_cell wrap w h txt st) = sty st.
Proof.
  unfold multi_cell. cbn [sty with_cursor].
  apply cells_sty. intros s l. apply cell_sty.
Qed.

Lemma bind_ln_sty (r : result) :
  sty (state_of (bind r (fun st => Done (ln None st)))) = sty (state_of r).
Proof. destruct r; reflexivity. Qed.

(** X8.  Every block renderer leaves its own font and text colour in
    force after it returns, normally or by [IndexError]; the
    renderers that fill (code block, table header, table row) leave
    their fill colour as well, and the others never touch the fill
    colour. *)
Theorem X8_style_left_behind
        (wrap : string -> string -> Z -> Z -> string -> list string)
        (b : block) (st : pdf) :
  sty (state_of (render wrap b st)) = style_after b (sty st).
Proof.
  destruct b; cbn [render state_of].
  - unfold chapter_title. cbv zeta. cbn [ln sty with_cursor].
    rewrite cell_sty. reflexivity.
  - unfold section_title. cbv zeta. cbn [ln sty with_cursor].
    rewrite cell_sty. reflexivity.
  - unfold subsection_title. cbv zeta. cbn [ln sty with_cursor].
    rewrite cell_sty. reflexivity.
  - unfold body_text. cbv zeta. cbn [ln sty with_cursor].
    rewrite multi_cell_sty. reflexivity.
  - unfold code_block. cbv zeta. cbn [ln sty with_cursor].
    rewrite code_lines_sty. reflexivity.
  - unfold bullet_point. cbv zeta. rewrite multi_cell_sty. reflexivity.
  - rewrite table_header_unfold, bind_ln_sty, table_cells_sty. reflexivity.
  - rewrite table_row_unfold, bind_ln_sty, table_cells_sty.
    destruct fill; reflexivity.
Qed.

(** ** The table of contents *)

Lemma toc_lines_hook toc (st : pdf) :
  in_hook st = Body -> in_hook (toc_lines toc st) = Body.
Proof.
  unfold toc_lines. revert st.
  induction toc as [|e rest IH]; intros st H; cbn [fold_left].
  - exact H.
  - apply IH, cell_hook, H.
Qed.

(** X10.  The loop that prints the table of contents draws one cell
    per entry, 7 high, showing the entry's title only: the page number
    stored with each entry is never drawn, and two tables of contents
    with the same titles give the same document state. *)
Theorem X10_toc_ignores_page_numbers (toc : list (string * nat)) (st : pdf) :
  in_hook st = Body ->
  (exists new,
      content (out (toc_lines toc st)) = (content (out st) ++ new)%list
      /\ map p_txt new = map fst toc
      /\ Forall (fun o => p_h o = 7) new)
  /\ (forall toc', map fst toc' = map fst toc ->
                   toc_lines toc' st = toc_lines toc st).
Proof.
  intro Hb. split.
  - unfold toc_lines. revert st Hb.
    induction toc as [|e rest IH]; intros st Hb; cbn [fold_left map].
    + exists []. rewrite app_nil_r. repeat split. constructor.
    + destruct (IH (cell 0 7 (fst e) false 1%nat AlignL false st))
        as (new & C & T & F); [apply cell_hook, Hb|].
      exists (cell_at 0 7 (fst e) false AlignL false st :: new).
      rewrite C, cell_content by exact Hb. rewrite <- app_assoc.
      split; [reflexivity|]. split.
      * cbn [map]. rewrite T. reflexivity.
      * constructor; [reflexivity | exact F].
  - unfold toc_lines. clear Hb. revert st.
    induction toc as [|e rest IH]; intros st toc' E;
      destruct toc' as [|e' rest']; try discriminate.
    + reflexivity.
    + cbn [map] in E. injection E as E1 E2. cbn [fold_left].
      rewrite E1. apply IH, E2.
Qed.

(** ** Paragraphs and bullets *)

Lemma para_cells_content w h lines (st : pdf) :
  in_hook st = Body ->
  content (out (fold_left
                  (fun s line => cell w h line false 2%nat AlignJ false s)
                  lines st))
  = (content (out st) ++ para_cells w h lines st)%list.
Proof.
  revert st. induction lines as [|l ls IH]; intros st Hb;
    cbn [fold_left para_cells].
  - rewrite app_nil_r. reflexivity.
  - rewrite IH by (apply cell_hook, Hb).
    rewrite cell_content by exact Hb. rewrite <- app_assoc. reflexivity.
Qed.

Lemma para_cells_shape w h lines (st : pdf) :
  w <> 0 ->
  map shape (para_cells w h lines st)
  = map (fun l => (get_x st, w, h, l, AlignJ, false, @None rgb,
                   (font_family (sty st), font_style (sty st),
                    font_size_pt (sty st), text_color (sty st))))
        lines.
Proof.
  intro Hw. revert st. induction lines as [|l ls IH]; intro st;
    cbn [para_cells map].
  - reflexivity.
  - rewrite IH, cell_sty, cell_x. f_equal.
    rewrite cell_at_shape.
    destruct (w =? 0) eqn:Z0; [apply Z.eqb_eq in Z0; contradiction|].
    reflexivity.
Qed.

(** X11.  [body_text] hands its text to the text measurer in Helvetica
    10 for the full content width and draws one cell per line it gets
    back, at the left margin, 5 high, without background;
    [bullet_point] does the same for the text behind the prefix
    "  - ".  When the measurer returns no line, nothing is placed. *)
Theorem X11_paragraph_lines
        (wrap : string -> string -> Z -> Z -> string -> list string)
        (text : string) (st : pdf) :
  in_hook st = Body ->
  (exists new,
      content (out (body_text wrap text st)) = (content (out st) ++ new)%list
      /\ map shape new
         = map para_line_shape
               (wrap "Helvetica" "" 10 (page_w - l_margin - r_margin) text))
  /\ (exists new,
         content (out (bullet_point wrap text st))
         = (content (out st) ++ new)%list
         /\ map shape new
            = map para_line_shape
                  (wrap "Helvetica" "" 10 (page_w - l_margin - r_margin)
                        ("  - " ++ text))).
Proof.
  intro Hb.
  assert (Gen : forall txt,
    exists new,
      content (out (multi_cell wrap 0 5 txt
                      (set_x 10 (set_text_color 0 0 0
                                   (set_font "Helvetica" "" 10 st)))))
      = (content (out st) ++ new)%list
      /\ map shape new
         = map para_line_shape
               (wrap "Helvetica" "" 10 (page_w - l_margin - r_margin) txt)).
  { intro txt. unfold multi_cell.
    set (pre := set_x 10 (set_text_color 0 0 0 (set_font "Helvetica" "" 10 st))).
    change (get_x pre) with 10.
    change (if 0 =? 0 then page_w - r_margin - 10 else 0)
      with (page_w - l_margin - r_margin).
    change (font_family (sty pre)) with "Helvetica".
    change (font_style (sty pre)) with "".
    change (font_size_pt (sty pre)) with 10.
    eexists. cbn [out with_cursor]. split.
    - rewrite para_cells_content by exact Hb. reflexivity.
    - rewrite para_cells_shape by discriminate. reflexivity. }
  split.
  - unfold body_text. cbv zeta. cbn [ln out with_cursor]. apply Gen.
  - unfold bullet_point. cbv zeta. apply Gen.
Qed.

(** ** C7: where the remaining space is checked *)




(** * Instances of the further properties *)

Lemma X1_witness :
  Forall tame demo_manual
  /\ generate demo_wrap demo_manual = Some demo_manual_doc
  /\ Forall within (content (out demo_manual_doc)).
Proof.
  assert (T : Forall tame demo_manual).
  { repeat constructor; unfold page_break_trigger, page_h, b_margin, t_margin;
      cbn; lia. }
  assert (G : generate demo_wrap demo_manual = Some demo_manual_doc)
    by (vm_compute; reflexivity).
  split; [exact T|]. split; [exact G|].
  exact (proj1 (X1_content_clear_of_decorations demo_wrap demo_manual
                  demo_manual_doc T G)).
Defined.

Lemma X3_witness :
  in_hook demo_bottom = Body
  /\ exists new,
      content (out (state_of (table_row ["a"; "b"] [50; 100] true demo_bottom)))
      = (content (out demo_bottom) ++ new)%list
      /\ (page_no demo_bottom
          <= page_no (state_of (table_row ["a"; "b"] [50; 100]%Z true
                                          demo_bottom))
          <= S (page_no demo_bottom))%nat
      /\ (forall a b, In a new -> In b new ->
                      p_page a = p_page b /\ p_y a = p_y b).
Proof.
  split; [reflexivity|].
  destruct (proj1 (X3_table_row_atomic ["a"; "b"] [50; 100] true demo_bottom
                     eq_refl)) as (new & C & P & A & _).
  exists new. split; [exact C|]. split; [exact P | exact A].
Defined.



Lemma X7_witness :
  in_hook demo_start = Body
  /\ get_y demo_start
     + 5 * Z.of_nat (List.length (PyStr.split PyStr.nl (PyStr.strip demo_code)))
     <= page_break_trigger
  /\ page_no (code_block demo_code demo_start) = page_no demo_start
  /\ get_y (code_block demo_code demo_start) = get_y demo_start + 5 * 3 + 3.
Proof.
  assert (Hy : get_y demo_start
               + 5 * Z.of_nat (List.length
                                 (PyStr.split PyStr.nl (PyStr.strip demo_code)))
               <= page_break_trigger) by (vm_compute; discriminate).
  split; [reflexivity|]. split; [exact Hy|].
  destruct (X7_code_block_that_fits demo_code demo_start eq_refl Hy)
    as (_ & P & _ & Y).
  split; [exact P | exact Y].
Defined.

Lemma X10_witness :
  in_hook demo_start = Body
  /\ map fst demo_toc' = map fst demo_toc
  /\ toc_lines demo_toc' demo_start = toc_lines demo_toc demo_start.
Proof.
  split; [reflexivity|]. split; [reflexivity|].
  exact (proj2 (X10_toc_ignores_page_numbers demo_toc demo_start eq_refl)
               demo_toc' eq_refl).
Defined.

Lemma X11_witness :
  in_hook demo_start = Body
  /\ exists new,
      content (out (bullet_point demo_wrap "GOTO jumps to a label" demo_start))
      = (content (out demo_start) ++ new)%list
      /\ map shape new = [para_line_shape "  - GOTO jumps to a label"].
Proof.
  split; [reflexivity|].
  exact (proj2 (X11_paragraph_lines demo_wrap "GOTO jumps to a label"
                  demo_start eq_refl)).
Defined.


